(** * pyramid_ldap3: search-string escaping, the timesliced query cache,
      query execution and the authenticate / user_groups facade.

    A shallow embedding of [pyramid_ldap3/__init__.py].  Python [str] values
    are lists of code points, [bytes] values are lists of [byte]; the
    directory client library ([ldap3]) is the object injected into
    [ConnectionManager], modelled by its answers to the calls the module
    makes; every call is recorded in a log.  Methods are computations on
    the state they mutate (the query object, the registry, the world) that
    return a value or raise.  The calls on [logger] have no effect on the
    results and are left out. *)

From Stdlib Require Import ZArith NArith QArith Qround List Ascii String Bool Lia.
From Stdlib.Strings Require Import Byte.
From stdpp Require Import gmap list.

Local Open Scope N_scope.

(** ** Python values that reach the module *)

(** A Python [str]: its code points, in order. *)
Abbreviation str := (list N).

(** A [str] literal of the source. *)
Definition lit (s : string) : str :=
  List.map N_of_ascii (list_ascii_of_string s).

(** The values a login, a password or a DN may be: [None], a [str] or a
    [bytes] object. *)
Inductive pyval : Type :=
  | PNone
  | PStr (s : str)
  | PBytes (b : list byte).

Global Instance byte_eq_dec : EqDecision byte := Byte.byte_eq_dec.

Global Instance pyval_eq_dec : EqDecision pyval.
Proof. solve_decision. Defined.

(** Python truthiness ([if s], [not s]). *)
Definition truthy (v : pyval) : bool :=
  match v with
  | PNone => false
  | PStr s => match s with [] => false | _ => true end
  | PBytes b => match b with [] => false | _ => true end
  end.

(** Python [==] between two of these values: a [str] never equals a [bytes]
    object or [None]. *)
Definition py_eqb (a b : pyval) : bool := bool_decide (a = b).

(** ** [bytes.decode('utf-8')] *)

Definition is_cont (n : N) : bool := (128 <=? n) && (n <=? 191).

(** The strict UTF-8 codec of the language runtime, which
    [s.decode('utf-8')] calls.  [None] stands for [UnicodeDecodeError].
    Well-formed sequences are those of the Unicode standard (no overlong
    forms, no surrogates, nothing above U+10FFFF). *)
Fixpoint utf8_decode (bs : list byte) : option str :=
  match bs with
  | [] => Some []
  | b0 :: r0 =>
    let n0 := Byte.to_N b0 in
    if n0 <? 128 then cons n0 <$> utf8_decode r0
    else if (194 <=? n0) && (n0 <=? 223) then
      match r0 with
      | b1 :: r1 =>
        let n1 := Byte.to_N b1 in
        if is_cont n1
        then cons ((n0 - 192) * 64 + (n1 - 128)) <$> utf8_decode r1
        else None
      | _ => None
      end
    else if (224 <=? n0) && (n0 <=? 239) then
      match r0 with
      | b1 :: b2 :: r2 =>
        let n1 := Byte.to_N b1 in
        let n2 := Byte.to_N b2 in
        let lo := if n0 =? 224 then 160 else 128 in
        let hi := if n0 =? 237 then 159 else 191 in
        if (lo <=? n1) && (n1 <=? hi) && is_cont n2
        then cons ((n0 - 224) * 4096 + (n1 - 128) * 64 + (n2 - 128))
               <$> utf8_decode r2
        else None
      | _ => None
      end
    else if (240 <=? n0) && (n0 <=? 244) then
      match r0 with
      | b1 :: b2 :: b3 :: r3 =>
        let n1 := Byte.to_N b1 in
        let n2 := Byte.to_N b2 in
        let n3 := Byte.to_N b3 in
        let lo := if n0 =? 240 then 144 else 128 in
        let hi := if n0 =? 244 then 143 else 191 in
        if (lo <=? n1) && (n1 <=? hi) && is_cont n2 && is_cont n3
        then cons ((n0 - 240) * 262144 + (n1 - 128) * 4096
                   + (n2 - 128) * 64 + (n3 - 128))
               <$> utf8_decode r3
        else None
      | _ => None
      end
    else None
  end.

(** ** [escape_for_search] *)

(** The five characters of the table. *)
Definition STAR : N := 42.
Definition LPAREN : N := 40.
Definition RPAREN : N := 41.
Definition BACKSLASH : N := 92.
Definition NUL : N := 0.

(** [_escape_for_search = {'*': '\\2A', '(': '\\28', ')': '\\29',
                           '\\': '\\5C', '\0': '\\00'}] *)
Definition _escape_for_search : gmap N str :=
  list_to_map
    [ (STAR, lit "\2A"); (LPAREN, lit "\28"); (RPAREN, lit "\29");
      (BACKSLASH, lit "\5C"); (NUL, lit "\00") ].

(** [_escape_for_search.get(c, c)] *)
Definition escape_char (c : N) : str :=
  default [c] (_escape_for_search !! c).

(** One lowercase hexadecimal digit, as [%x] prints it. *)
Definition hex_digit (d : N) : N :=
  if d <? 10 then 48 + d else 87 + d.

(** ['\\%02x' % _ord(b)] for one element [b] of a [bytes] object (Python 3:
    [_ord] is [int] and [b] is already an integer below 256). *)
Definition percent_02x (b : byte) : str :=
  let n := Byte.to_N b in
  [BACKSLASH; hex_digit (n / 16); hex_digit (n mod 16)].

(** [''.join(f(x) for x in xs)] *)
Definition join {A} (f : A -> str) (xs : list A) : str :=
  List.concat (List.map f xs).

Definition escape_for_search (s : pyval) : pyval :=
  if negb (truthy s) then s
  else match s with
       | PBytes b =>
         match utf8_decode b with
         | Some u => PStr (join escape_char u)
         | None => PStr (join percent_02x b)
         end
       | PStr u => PStr (join escape_char u)
       | PNone => PNone
       end.

(** ** What the escaping is for: reading the output back *)

(** The value of a hexadecimal digit (either case), [None] for any other
    character. *)
Definition hex_value (c : N) : option N :=
  if (48 <=? c) && (c <=? 57) then Some (c - 48)
  else if (97 <=? c) && (c <=? 102) then Some (c - 87)
  else if (65 <=? c) && (c <=? 70) then Some (c - 55)
  else None.

(** Hex-decoding a string made only of [\xx] escapes: every group of three
    characters must be a backslash and two hexadecimal digits, and gives
    one byte. *)
Fixpoint hex_decode (s : str) : option (list byte) :=
  match s with
  | [] => Some []
  | c :: h :: l :: rest =>
    if c =? BACKSLASH then
      match hex_value h, hex_value l with
      | Some x, Some y =>
        match Byte.of_N (16 * x + y), hex_decode rest with
        | Some b, Some bs => Some (b :: bs)
        | _, _ => None
        end
      | _, _ => None
      end
    else None
  | _ => None
  end.

(** RFC 4515 reading of a filter value: a backslash introduces a two-digit
    escape, the characters [*], [(], [)] and NUL may not stand for
    themselves, any other character stands for itself.  [None] when the
    string has a raw special character. *)
Fixpoint unescape (s : str) : option str :=
  match s with
  | [] => Some []
  | c :: rest =>
    if c =? BACKSLASH then
      match rest with
      | h :: l :: rest' =>
        match hex_value h, hex_value l with
        | Some x, Some y => cons (16 * x + y) <$> unescape rest'
        | _, _ => None
        end
      | _ => None
      end
    else if (c =? STAR) || (c =? LPAREN) || (c =? RPAREN) || (c =? NUL)
    then None
    else cons c <$> unescape rest
  end.

(** In the output, a backslash is always followed by the two digits of one
    of the five escapes: scanning from the left, every token is such an
    escape or one character that is not in the table. *)
Fixpoint only_table_escapes (s : str) : bool :=
  match s with
  | [] => true
  | c :: rest =>
    if c =? BACKSLASH then
      match rest with
      | h :: l :: rest' =>
        bool_decide ([h; l] ∈ [lit "2A"; lit "28"; lit "29"; lit "5C"; lit "00"])
        && only_table_escapes rest'
      | _ => false
      end
    else negb ((c =? STAR) || (c =? LPAREN) || (c =? RPAREN) || (c =? NUL))
         && only_table_escapes rest
  end.

(** A lowercase hexadecimal digit. *)
Definition is_lower_hex (c : N) : bool :=
  ((48 <=? c) && (c <=? 57)) || ((97 <=? c) && (c <=? 102)).

(** ** Exceptions and the state-and-exception monad *)

Inductive exn : Type :=
  | LDAPException                       (* ldap3.core.exceptions.LDAPException *)
  | ConfigurationError (msg : string)   (* pyramid.exceptions.ConfigurationError *)
  | ZeroDivisionError
  | KeyError
  | OtherError (name : string).

Inductive Result (A : Type) : Type :=
  | Ok (a : A)
  | Raise (e : exn).
Arguments Ok {A} a.
Arguments Raise {A} e.

(** A computation over a mutable state [S]: the state survives an
    exception, as the mutations of a Python object do. *)
Definition M (S A : Type) : Type := S -> Result A * S.

Definition ret {S A} (a : A) : M S A := fun s => (Ok a, s).
Definition raise {S A} (e : exn) : M S A := fun s => (Raise e, s).
Definition bind {S A B} (m : M S A) (k : A -> M S B) : M S B :=
  fun s => match m s with
           | (Ok a, s') => k a s'
           | (Raise e, s') => (Raise e, s')
           end.
Definition of_result {S A} (r : Result A) : M S A := fun s => (r, s).

Declare Scope py_scope.
Delimit Scope py_scope with py.
Notation "x <- m ;; k" := (bind m (fun x => k))
  (at level 100, m at next level, right associativity) : py_scope.
Notation "m ;;; k" := (bind m (fun _ => k))
  (at level 100, right associativity) : py_scope.
Local Open Scope py_scope.

(** [try: body  except LDAPException: handler]: only [LDAPException] is
    caught, any other exception goes on to the caller. *)
Definition try_except_LDAPException {S A} (body handler : M S A) : M S A :=
  fun s => match body s with
           | (Raise LDAPException, s') => handler s'
           | r => r
           end.

(** ** The directory client library, as the module uses it *)

Inductive search_scope : Type := BASE | LEVEL | SUBTREE.
Inductive client_strategy : Type := SYNC | ASYNC | REUSABLE.

Abbreviation attrdict := (list (str * list str)).

(** One element of the response list of [conn.get_response]: ldap3 returns
    a search result entry, a dict with the keys ['dn'] and ['attributes'],
    or a search result reference, a dict with the key ['uri'] and no
    ['dn']. *)
Inductive response_record : Type :=
  | SearchResEntry (dn : str) (attributes : attrdict)
  | SearchResRef (uri : list str).

(** ['dn' in r] *)
Definition has_dn (r : response_record) : bool :=
  match r with SearchResEntry _ _ => true | SearchResRef _ => false end.

Record Server : Type := mkServer
  { host : str; port : Z; use_ssl : bool }.

(** The keyword arguments of [ldap3.Connection(server, ...)]. *)
Record ConnectionArgs : Type := mkConnectionArgs
  { ca_server : list Server;
    ca_user : pyval;
    ca_password : pyval;
    ca_client_strategy : client_strategy;
    ca_pool_name : option str;
    ca_pool_size : option Z;
    ca_pool_lifetime : option Z;
    ca_auto_bind : bool;
    ca_lazy : bool;
    ca_read_only : bool }.

(** A connection object, named by the position of its creation in the log. *)
Abbreviation Conn := nat.

(** The calls made on the library. *)
Inductive Event : Type :=
  | EConnection (args : ConnectionArgs)
  | EEnter (c : Conn)
  | EExit (c : Conn)
  | ESearch (c : Conn) (search_base search_filter : str)
            (sc : search_scope) (attributes : option (list str))
  | EGetResponse (c : Conn) (msg : Z)
  | EUnbind (c : Conn).

(** What lies outside the module: the clock read by [time()] and the calls
    made on the directory so far. *)
Record World : Type := mkWorld
  { now : Q;
    log : list Event }.


Definition record (ev : Event) (w : World) : World :=
  {| now := now w; log := log w ++ [ev] |}.

(** The library object held by the manager ([self.ldap3], injectable): the
    outcome of each call, which may depend on the time and on all earlier
    calls.  Any of them may raise. *)
Record Ldap3 : Type := mkLdap3
  { on_Connection : World -> ConnectionArgs -> Result unit;
    on_enter : World -> Conn -> Result unit;
    on_exit : World -> Conn -> Result unit;
    on_search : World -> Conn -> str -> str -> search_scope ->
                option (list str) -> Result Z;
    on_get_response : World -> Conn -> Z ->
                      Result (option (list response_record));
    on_unbind : World -> Conn -> Result unit }.

(** A call on the library: its outcome is the library's, and the call is
    logged whether or not it raises. *)
Definition call {A} (ev : Event) (outcome : World -> Result A) : M World A :=
  fun w => (outcome w, record ev w).

(** [ldap3.Connection(server, ..., auto_bind=True)]: binds at creation and
    raises when the bind fails; on success the new connection object. *)
Definition Connection (lib : Ldap3) (args : ConnectionArgs) : M World Conn :=
  fun w => match on_Connection lib w args with
           | Ok _ => (Ok (length (log w)), record (EConnection args) w)
           | Raise e => (Raise e, record (EConnection args) w)
           end.

Definition conn_search (lib : Ldap3) (c : Conn) (search_base search_filter : str)
    (sc : search_scope) (attributes : option (list str)) : M World Z :=
  call (ESearch c search_base search_filter sc attributes)
       (fun w => on_search lib w c search_base search_filter sc attributes).

Definition conn_get_response (lib : Ldap3) (c : Conn) (msg : Z)
    : M World (option (list response_record)) :=
  call (EGetResponse c msg) (fun w => on_get_response lib w c msg).

Definition conn_unbind (lib : Ldap3) (c : Conn) : M World unit :=
  call (EUnbind c) (fun w => on_unbind lib w c).

(** [with acquire as conn: body]: [__enter__] after the acquisition,
    [__exit__] on every way out of the body; an exception of the body goes
    on after [__exit__] (ldap3's [__exit__] does not swallow it), unless
    [__exit__] raises itself. *)
Definition with_as {A} (lib : Ldap3) (acquire : M World Conn)
    (body : Conn -> M World A) : M World A :=
  conn <- acquire ;;
  call (EEnter conn) (fun w => on_enter lib w conn) ;;;
  fun w => match body conn w with
           | (Ok a, w') =>
             match call (EExit conn) (fun w => on_exit lib w conn) w' with
             | (Ok _, w'') => (Ok a, w'')
             | (Raise e, w'') => (Raise e, w'')
             end
           | (Raise e, w') =>
             match call (EExit conn) (fun w => on_exit lib w conn) w' with
             | (Ok _, w'') => (Raise e, w'')
             | (Raise e', w'') => (Raise e', w'')
             end
           end.

(** ** [ConnectionManager] *)

Record ConnectionManager : Type := mkConnectionManager
  { ldap3 : Ldap3;
    server : list Server;
    bind_dn : pyval;           (* self.bind *)
    passwd : pyval;
    strategy : client_strategy;
    pool_name : option str;
    pool_size : option Z;
    pool_lifetime : option Z }.

Definition connection (self : ConnectionManager) (user password : pyval)
    : M World Conn :=
  if truthy user then
    Connection (ldap3 self)
      {| ca_server := server self; ca_user := user; ca_password := password;
         ca_client_strategy := SYNC;
         ca_pool_name := None; ca_pool_size := None; ca_pool_lifetime := None;
         ca_auto_bind := true; ca_lazy := false; ca_read_only := true |}
  else
    Connection (ldap3 self)
      {| ca_server := server self; ca_user := bind_dn self;
         ca_password := passwd self;
         ca_client_strategy := strategy self;
         ca_pool_name := pool_name self; ca_pool_size := pool_size self;
         ca_pool_lifetime := pool_lifetime self;
         ca_auto_bind := true; ca_lazy := false; ca_read_only := true |}.

(** ** [_timeslice] *)

(** Python's [a % p] on numbers: the remainder has the sign of [p]. *)
Definition py_mod (a : Q) (p : Z) : Q :=
  (a - inject_Z p * inject_Z (Qfloor (a / inject_Z p)))%Q.

(** [when - (when % period)]; [%] raises [ZeroDivisionError] when the period
    is 0.  The clock value is taken as an exact rational number of
    seconds.  The source computes on floats: for a whole period from 1 to
    2^53 and a clock value from 0 up to 2^53 its result is this one, the
    remainder of two floats being exact and the difference a whole multiple
    of the period below 2^53; beyond that range the float result is
    rounded, and only the comparisons of buckets are meant. *)
Definition _timeslice (period : Z) (when : Q) : Result Q :=
  if (period =? 0)%Z then Raise ZeroDivisionError
  else Ok (when - py_mod when period)%Q.

(** [a > b] on numbers *)
Definition Qgtb (a b : Q) : bool := negb (Qle_bool a b).

(** ** [_LDAPQuery] *)

Abbreviation result_set := (list (str * attrdict)).

Record LDAPQuery : Type := mkLDAPQuery
  { base_dn : str;
    filter_tmpl : str;
    scope : search_scope;
    attributes : option (list str);
    cache_period : Z;
    last_timeslice : Q;
    cache : gmap (str * str) result_set }.

(** [_LDAPQuery.__init__] *)
Definition new_LDAPQuery (base_dn filter_tmpl : str) (scope : search_scope)
    (attributes : option (list str)) (cache_period : Z) : LDAPQuery :=
  {| base_dn := base_dn; filter_tmpl := filter_tmpl; scope := scope;
     attributes := attributes; cache_period := cache_period;
     last_timeslice := 0%Q; cache := ∅ |}.

(** [self.cache = {}; self.last_timeslice = ts] *)
Definition dump_cache (ts : Q) (self : LDAPQuery) : LDAPQuery :=
  {| base_dn := base_dn self; filter_tmpl := filter_tmpl self;
     scope := scope self; attributes := attributes self;
     cache_period := cache_period self;
     last_timeslice := ts; cache := ∅ |}.

(** [self.cache[cache_key] = result] *)
Definition store (cache_key : str * str) (result : result_set)
    (self : LDAPQuery) : LDAPQuery :=
  {| base_dn := base_dn self; filter_tmpl := filter_tmpl self;
     scope := scope self; attributes := attributes self;
     cache_period := cache_period self;
     last_timeslice := last_timeslice self;
     cache := <[cache_key := result]> (cache self) |}.

(** The methods of a query run on the query object and the world. *)
Definition get_self {S W} : M (S * W) S := fun s => (Ok (fst s), s).
Definition modify_self {S W} (f : S -> S) : M (S * W) unit :=
  fun s => (Ok tt, (f (fst s), snd s)).
Definition in_world {S W A} (m : M W A) : M (S * W) A :=
  fun s => match m (snd s) with (r, w') => (r, (fst s, w')) end.

(** [time()] *)
Definition time : M World Q := fun w => (Ok (now w), w).

(** [[(r['dn'], r['attributes']) for r in result if 'dn' in r]] *)
Fixpoint dn_attributes (response : list response_record) : result_set :=
  match response with
  | [] => []
  | SearchResEntry dn attrs :: rest => (dn, attrs) :: dn_attributes rest
  | SearchResRef _ :: rest => dn_attributes rest
  end.

Definition query_cache (cache_key : str * str)
    : M (LDAPQuery * World) (option result_set) :=
  self <- get_self ;;
  now <- in_world time ;;
  ts <- of_result (_timeslice (cache_period self) now) ;;
  (if Qgtb ts (last_timeslice self)
   then modify_self (dump_cache ts)
   else ret tt) ;;;
  self <- get_self ;;
  ret (cache self !! cache_key).

(** The attributes of the registry object that this module sets and
    reads. *)
Abbreviation Registry := (gmap str LDAPQuery).

Section PyramidLdap3.

(** The [%] operator of [str] with a dict on the right
    ([self.base_dn % kw]): part of the language runtime.  It raises when
    the template names a key that [kw] lacks or is malformed. *)
Variable py_format : str -> list (str * pyval) -> Result str.

(** The [with manager.connection() as conn:] block of [execute]: the
    search on a connection of the manager's own (no user given) and the
    retrieval of its response, the first component of [get_response]. *)
Definition search_directory (manager : ConnectionManager) (self : LDAPQuery)
    (cache_key : str * str) : M World (option (list response_record)) :=
  with_as (ldap3 manager) (connection manager PNone PNone) (fun conn =>
    msg <- conn_search (ldap3 manager) conn (fst cache_key) (snd cache_key)
             (scope self) (attributes self) ;;
    conn_get_response (ldap3 manager) conn msg).

Definition execute (manager : ConnectionManager) (kw : list (str * pyval))
    : M (LDAPQuery * World) result_set :=
  self <- get_self ;;
  base <- of_result (py_format (base_dn self) kw) ;;
  filter <- of_result (py_format (filter_tmpl self) kw) ;;
  let cache_key := (base, filter) in
  result <- (if (cache_period self =? 0)%Z then ret None
             else query_cache cache_key) ;;
  match result with
  | None =>
    response <- in_world (search_directory manager self cache_key) ;;
    match response with
    | None => ret []
    | Some records =>
      let result := dn_attributes records in
      (if (cache_period self =? 0)%Z then ret tt
       else modify_self (store cache_key result)) ;;;
      ret result
    end
  | Some result => ret result
  end.

(** ** Registry identifiers *)

(** [_registry_identifier]; [realm] is [None] or a [str], and an empty
    realm counts as none ([if realm:]). *)
Definition _registry_identifier (base_identifier : str) (realm : option str)
    : str :=
  match realm with
  | Some (c :: r) => base_identifier ++ lit "_" ++ (c :: r)
  | _ => base_identifier
  end.

(** ** [Connector] *)

Record Connector : Type := mkConnector
  { manager : ConnectionManager;
    realm : option str;
    login_qry_identif : str;
    group_qry_identif : str }.

(** [Connector.__init__]; the registry is the shared state the methods
    run on. *)
Definition new_Connector (manager : ConnectionManager) (realm : option str)
    : Connector :=
  {| manager := manager; realm := realm;
     login_qry_identif := _registry_identifier (lit "ldap_login_query") realm;
     group_qry_identif := _registry_identifier (lit "ldap_groups_query") realm |}.

(** [getattr(self.registry, name, None)] *)
Definition getattr (name : str) : M (Registry * World) (option LDAPQuery) :=
  fun s => (Ok (fst s !! name), s).

(** A method call on the query object stored under [name]: the object is
    mutated in place, so its new state is the registry's, also when the
    call raises. *)
Definition on_attr {A} (name : str) (search : LDAPQuery)
    (m : M (LDAPQuery * World) A) : M (Registry * World) A :=
  fun s => match m (search, snd s) with
           | (r, (search', w')) => (r, (<[name := search']> (fst s), w'))
           end.

Definition authenticate (self : Connector) (login password : pyval)
    : M (Registry * World) (option (str * attrdict)) :=
  if py_eqb password (PStr []) then ret None
  else
    search <- getattr (login_qry_identif self) ;;
    match search with
    | None =>
      raise (ConfigurationError
               "ldap_set_login_query was not called during setup")
    | Some search =>
      result <- on_attr (login_qry_identif self) search
                  (execute (manager self)
                     [ (lit "login", escape_for_search login);
                       (lit "password", escape_for_search password) ]) ;;
      if negb (match result with [] => false | _ => true end)
         || (1 <? length result)%nat
      then ret None
      else
        match result with
        | [] => raise (OtherError "IndexError")
        | result0 :: _ =>
          let login_dn := fst result0 in
          try_except_LDAPException
            (in_world
               (conn <- connection (manager self) (PStr login_dn) password ;;
                conn_unbind (ldap3 (manager self)) conn) ;;;
             ret (Some result0))
            (ret None)
        end
    end.

Definition user_groups (self : Connector) (userdn : pyval)
    : M (Registry * World) (option result_set) :=
  search <- getattr (group_qry_identif self) ;;
  match search with
  | None =>
    raise (ConfigurationError
             "set_ldap_groups_query was not called during setup")
  | Some search =>
    try_except_LDAPException
      (result <- on_attr (group_qry_identif self) search
                   (execute (manager self)
                      [ (lit "userdn", escape_for_search userdn) ]) ;;
       ret (Some result))
      (ret None)
  end.

(** [ldap_set_login_query] / [ldap_set_groups_query], as their [register]
    action leaves the registry. *)
Definition ldap_set_login_query (base_dn filter_tmpl : str)
    (scope : search_scope) (attributes : option (list str))
    (cache_period : Z) (realm : option str) (registry : Registry) : Registry :=
  <[_registry_identifier (lit "ldap_login_query") realm :=
      new_LDAPQuery base_dn filter_tmpl scope attributes cache_period]> registry.

Definition ldap_set_groups_query (base_dn filter_tmpl : str)
    (scope : search_scope) (attributes : option (list str))
    (cache_period : Z) (realm : option str) (registry : Registry) : Registry :=
  <[_registry_identifier (lit "ldap_groups_query") realm :=
      new_LDAPQuery base_dn filter_tmpl scope attributes cache_period]> registry.

End PyramidLdap3.

(** ** Names for the statements *)

(** The keyword arguments [authenticate] passes to the login query. *)
Definition login_kw (login password : pyval) : list (str * pyval) :=
  [ (lit "login", escape_for_search login);
    (lit "password", escape_for_search password) ].

(** The arguments of the connection [manager.connection(user, password)]
    opens when [user] is given: a fresh synchronous connection bound as
    [user], outside the pool. *)
Definition direct_bind (manager : ConnectionManager) (user password : pyval)
    : ConnectionArgs :=
  {| ca_server := server manager; ca_user := user; ca_password := password;
     ca_client_strategy := SYNC;
     ca_pool_name := None; ca_pool_size := None; ca_pool_lifetime := None;
     ca_auto_bind := true; ca_lazy := false; ca_read_only := true |}.

(** The keyword arguments [user_groups] passes to the groups query. *)
Definition groups_kw (userdn : pyval) : list (str * pyval) :=
  [ (lit "userdn", escape_for_search userdn) ].

(** The time bucket of [t] for a nonzero period: [t - (t mod period)]. *)
Definition bucket (period : Z) (t : Q) : Q := (t - py_mod t period)%Q.

(** The result sequence [execute] makes of a response. *)
Definition mapped (response : option (list response_record)) : result_set :=
  match response with
  | None => []
  | Some records => dn_attributes records
  end.

(** A [(dn, attributes)] pair, as the record it came from. *)
Definition as_entry (p : str * attrdict) : response_record :=
  SearchResEntry (fst p) (snd p).

(** The arguments of the connection [manager.connection()] opens when no
    user is given: the manager's own bind, with its strategy and pool. *)
Definition service_bind (manager : ConnectionManager) : ConnectionArgs :=
  {| ca_server := server manager; ca_user := bind_dn manager;
     ca_password := passwd manager;
     ca_client_strategy := strategy manager;
     ca_pool_name := pool_name manager; ca_pool_size := pool_size manager;
     ca_pool_lifetime := pool_lifetime manager;
     ca_auto_bind := true; ca_lazy := false; ca_read_only := true |}.

(** What [execute] does after a miss: search the directory, map the
    response, and store the mapped result if caching is on; a null response
    gives the empty sequence and is not stored. *)
Definition after_miss (manager : ConnectionManager) (self : LDAPQuery)
    (key : str * str) (q0 : LDAPQuery) (w : World)
    : Result result_set * (LDAPQuery * World) :=
  match search_directory manager self key w with
  | (Raise e, w') => (Raise e, (q0, w'))
  | (Ok None, w') => (Ok [], (q0, w'))
  | (Ok (Some records), w') =>
    (Ok (dn_attributes records),
     (if (cache_period self =? 0)%Z then q0
      else store key (dn_attributes records) q0, w'))
  end.

(** The query object [self] with another stored bucket and another
    mapping. *)
Definition with_cache_state (ts : Q) (c : gmap (str * str) result_set)
    (self : LDAPQuery) : LDAPQuery :=
  {| base_dn := base_dn self; filter_tmpl := filter_tmpl self;
     scope := scope self; attributes := attributes self;
     cache_period := cache_period self;
     last_timeslice := ts; cache := c |}.

(** What [_registry_identifier] keeps of a realm: an empty realm is no
    realm. *)
Definition realm_key (realm : option str) : option str :=
  match realm with
  | Some (c :: r) => Some (c :: r)
  | _ => None
  end.

(** ** A concrete setting for the examples *)

Definition Result_map {A B} (f : A -> B) (r : Result A) : Result B :=
  match r with Ok a => Ok (f a) | Raise e => Raise e end.

(** [str(v)] for the values [escape_for_search] returns. *)
Definition py_str (v : pyval) : str :=
  match v with
  | PNone => lit "None"
  | PStr s => s
  | PBytes _ => lit "b''"
  end.

Inductive format_state : Type :=
  | FText
  | FPercent
  | FName (name : str)
  | FConversion (value : pyval).

Fixpoint lookup_kw (name : str) (kw : list (str * pyval)) : option pyval :=
  match kw with
  | [] => None
  | (k, v) :: rest => if bool_decide (k = name) then Some v
                      else lookup_kw name rest
  end.

(** An instance of the [%] operator for the templates of the examples:
    text, [%%] and [%(name)s] conversions. *)
Fixpoint format_from (kw : list (str * pyval)) (st : format_state)
    (tmpl : str) : Result str :=
  match tmpl with
  | [] => match st with
          | FText => Ok []
          | _ => Raise (OtherError "ValueError")
          end
  | c :: rest =>
    match st with
    | FText =>
      if c =? 37 then format_from kw FPercent rest
      else Result_map (cons c) (format_from kw FText rest)
    | FPercent =>
      if c =? 37 then Result_map (cons c) (format_from kw FText rest)
      else if c =? LPAREN then format_from kw (FName []) rest
      else Raise (OtherError "TypeError")
    | FName name =>
      if c =? RPAREN then
        match lookup_kw name kw with
        | Some v => format_from kw (FConversion v) rest
        | None => Raise KeyError
        end
      else format_from kw (FName (name ++ [c])) rest
    | FConversion v =>
      if c =? 115 then Result_map (app (py_str v)) (format_from kw FText rest)
      else Raise (OtherError "ValueError")
    end
  end.

Definition percent_format (tmpl : str) (kw : list (str * pyval)) : Result str :=
  format_from kw FText tmpl.

(** A directory with one user, [uid=alice,ou=people], whose password is
    [secret], member of one group; a search answers by its filter: the
    login [twin] matches two entries, the login [nobody] gets a null
    response, the groups of [uid=down] cannot be read. *)
Definition alice_dn : str := lit "uid=alice,ou=people".
Definition alice_entry : response_record :=
  SearchResEntry alice_dn [(lit "cn", [lit "Alice"])].
Definition twin_entry : response_record :=
  SearchResEntry (lit "uid=alice,ou=guests") [(lit "cn", [lit "Alice"])].
Definition staff_entry : response_record :=
  SearchResEntry (lit "cn=staff,ou=groups") [(lit "cn", [lit "staff"])].

(** The filter of the last search made on connection [c]. *)
Fixpoint last_filter (c : Conn) (evs : list Event) : option str :=
  match evs with
  | [] => None
  | ev :: rest =>
    match last_filter c rest with
    | Some f => Some f
    | None => match ev with
              | ESearch c' _ f _ _ => if (c' =? c)%nat then Some f else None
              | _ => None
              end
    end
  end.

Definition example_ldap3 : Ldap3 :=
  {| on_Connection := fun _ args =>
       match ca_client_strategy args with
       | SYNC =>
         if bool_decide (ca_user args = PStr alice_dn)
            && bool_decide (ca_password args = PStr (lit "secret"))
         then Ok tt else Raise LDAPException
       | _ => Ok tt
       end;
     on_enter := fun _ _ => Ok tt;
     on_exit := fun _ _ => Ok tt;
     on_search := fun w _ _ _ _ _ => Ok (Z.of_nat (length (log w)));
     on_get_response := fun w c _ =>
       match last_filter c (log w) with
       | Some f =>
         if bool_decide (f = lit "(uid=alice)")
         then Ok (Some [SearchResRef [lit "ldap://other"]; alice_entry])
         else if bool_decide (f = lit "(uid=twin)")
         then Ok (Some [alice_entry; twin_entry])
         else if bool_decide (f = lit "(member=uid=alice,ou=people)")
         then Ok (Some [staff_entry])
         else if bool_decide (f = lit "(uid=nobody)")
         then Ok None
         else if bool_decide (f = lit "(member=uid=down)")
         then Raise LDAPException
         else Ok (Some [])
       | None => Ok (Some [])
       end;
     on_unbind := fun _ _ => Ok tt |}.

Definition example_manager : ConnectionManager :=
  {| ldap3 := example_ldap3;
     server := [ {| host := lit "localhost"; port := 389; use_ssl := false |} ];
     bind_dn := PStr (lit "cn=service"); passwd := PStr (lit "service");
     strategy := REUSABLE;
     pool_name := Some (lit "pyramid_ldap3");
     pool_size := Some 10%Z; pool_lifetime := Some 3600%Z |}.

Definition example_registry : Registry :=
  ldap_set_groups_query (lit "ou=groups") (lit "(member=%(userdn)s)")
    SUBTREE None 0 None
    (ldap_set_login_query (lit "ou=people") (lit "(uid=%(login)s)")
       LEVEL None 60 None ∅).

Definition example_login_query : LDAPQuery :=
  new_LDAPQuery (lit "ou=people") (lit "(uid=%(login)s)") LEVEL None 60.

Definition example_groups_query : LDAPQuery :=
  new_LDAPQuery (lit "ou=groups") (lit "(member=%(userdn)s)") SUBTREE None 0.

Definition example_world : World := {| now := 100%Q; log := [] |}.

Definition example_connector : Connector := new_Connector example_manager None.

(** ** The other identifiers *)

(** [_activity_identifier]: the realm is joined with a hyphen. *)
Definition _activity_identifier (base_identifier : str) (realm : option str)
    : str :=
  match realm with
  | Some (c :: r) => base_identifier ++ lit "-" ++ (c :: r)
  | _ => base_identifier
  end.

(** [_pool_identifier] *)
Definition _pool_identifier (base_identifier : str) (realm : option str)
    : str :=
  match realm with
  | Some (c :: r) => base_identifier ++ lit "_" ++ (c :: r)
  | _ => base_identifier
  end.

(** [get_ldap_connector_name] *)
Definition get_ldap_connector_name (realm : option str) : str :=
  _registry_identifier (lit "ldap_connector") realm.

(** ** [ConnectionManager.__init__] *)

(** [s.startswith(sep)] *)
Fixpoint starts_with (sep s : str) : bool :=
  match sep, s with
  | [], _ => true
  | a :: sep', b :: s' => (a =? b) && starts_with sep' s'
  | _ :: _, [] => false
  end.

(** [s.split(sep, 1)] for a separator that is not empty: the parts before
    and after the first occurrence of [sep], or [None] when [sep] does not
    occur and the list returned is [[s]]. *)
Fixpoint split_once (sep s : str) : option (str * str) :=
  if starts_with sep s then Some ([], drop (length sep) s)
  else match s with
       | [] => None
       | c :: rest =>
         match split_once sep rest with
         | Some (before, after) => Some (c :: before, after)
         | None => None
         end
       end.

(** The [uri] argument: one string, or a list or tuple of strings. *)
Inductive uri_arg : Type :=
  | UriStr (s : str)
  | UriList (l : list str).

(** The arguments of one call of [ldap3.Server]; [tls] and [get_info] are
    handed over as they are. *)
Record ServerArgs (Tls : Type) : Type := mkServerArgs
  { sa_host : str;
    sa_port : Z;
    sa_use_ssl : bool;
    sa_tls : Tls;
    sa_get_info : str }.
Arguments mkServerArgs {Tls}.
Arguments sa_host {Tls}.
Arguments sa_port {Tls}.
Arguments sa_use_ssl {Tls}.
Arguments sa_tls {Tls}.
Arguments sa_get_info {Tls}.

(** [ldap3.NONE] *)
Definition ldap3_NONE : str := lit "NO_INFO".

(** The attributes of a request that [ldap_setup] adds: the connector of
    each realm, under its name. *)
Abbreviation Request := (gmap str Connector).

Section ConnectionManagerInit.

(** The type of the [tls] argument, which the module only passes on. *)
Variable Tls : Type.

(** [int(port)] on a string, of the language runtime; [None] stands for
    [ValueError]. *)
Variable py_int : str -> option Z.

(** [c.isspace()], of the language runtime: the characters at which
    [uri.split()] cuts. *)
Variable isspace : N -> bool.

(** [ldap3.Server(host, port=port, use_ssl=use_ssl, tls=tls,
    get_info=get_info)]: the library's descriptor of the endpoint, or the
    exception it raises for arguments it refuses. *)
Variable ldap3_Server : ServerArgs Tls -> Result Server.

(** [s.split()]: the maximal runs of characters that are not whitespace;
    [cur] is the run being read. *)
Fixpoint split_from (cur s : str) : list str :=
  match s with
  | [] => match cur with [] => [] | _ => [cur] end
  | c :: rest =>
    if isspace c
    then match cur with
         | [] => split_from [] rest
         | _ => cur :: split_from [] rest
         end
    else split_from (cur ++ [c]) rest
  end.

Definition py_split (s : str) : list str := split_from [] s.

(** The body of the loop over the URIs, up to the call of [ldap3.Server]:
    scheme and host are cut at the first [://] (no [://]: scheme [ldap]), the
    port at the first [:] of the host; a missing port or one that [int]
    refuses gives 636 under [ldaps] and 389 otherwise. *)
Definition server_args (tls : Tls) (get_info : str) (uri : str)
    : ServerArgs Tls :=
  let '(schema, host) :=
    match split_once (lit "://") uri with
    | Some (schema, host) => (schema, host)
    | None => (lit "ldap", uri)
    end in
  let use_ssl := bool_decide (schema = lit "ldaps") in
  let '(host, port) :=
    match split_once (lit ":") host with
    | Some (host, port) =>
      match py_int port with
      | Some port => (host, port)
      | None => (host, if use_ssl then 636%Z else 389%Z)
      end
    | None => (host, if use_ssl then 636%Z else 389%Z)
    end in
  {| sa_host := host; sa_port := port; sa_use_ssl := use_ssl;
     sa_tls := tls; sa_get_info := get_info |}.

(** [servers.append(self.ldap3.Server(...))] for every URI in turn; the
    first exception ends the loop. *)
Fixpoint make_servers (tls : Tls) (get_info : str) (uris : list str)
    : Result (list Server) :=
  match uris with
  | [] => Ok []
  | uri :: rest =>
    match ldap3_Server (server_args tls get_info uri) with
    | Raise e => Raise e
    | Ok server =>
      match make_servers tls get_info rest with
      | Raise e => Raise e
      | Ok servers => Ok (server :: servers)
      end
    end
  end.

(** [uris = uri if isinstance(uri, (list, tuple)) else uri.split()] *)
Definition uris_of (uri : uri_arg) : list str :=
  match uri with
  | UriList l => l
  | UriStr s => py_split s
  end.

(** [self.uri = uri[0] if len(uris) == 1 else uris]: [uri] is the argument,
    so for a string it is its first character; [inl] is a string, [inr] a
    list.  ([uri[0]] exists whenever [uris] has one element.) *)
Definition uri_attribute (uri : uri_arg) : str + list str :=
  if (length (uris_of uri) =? 1)%nat
  then match uri with
       | UriStr s => inl (take 1 s)
       | UriList l => inl (List.hd [] l)
       end
  else inr (uris_of uri).

(** [ConnectionManager.__init__]: the attribute [self.uri] and the manager.
    [self.server] is the one server, or the [ServerPool] of the servers in
    the order of the URIs: the list of the servers stands for both. *)
Definition ConnectionManager__init__ (lib : Ldap3) (uri : uri_arg)
    (bind passwd : pyval) (tls : Tls) (use_pool : bool)
    (pool_size pool_lifetime : option Z) (get_info : option str)
    (realm : option str) : Result ((str + list str) * ConnectionManager) :=
  let get_info := match get_info with None => ldap3_NONE | Some g => g end in
  match make_servers tls get_info (uris_of uri) with
  | Raise e => Raise e
  | Ok servers =>
    Ok (uri_attribute uri,
        if use_pool then
          {| ldap3 := lib; server := servers; bind_dn := bind; passwd := passwd;
             strategy := REUSABLE;
             pool_name := Some (_pool_identifier (lit "pyramid_ldap3") realm);
             pool_size := pool_size; pool_lifetime := pool_lifetime |}
        else
          {| ldap3 := lib; server := servers; bind_dn := bind; passwd := passwd;
             strategy := ASYNC;
             pool_name := None; pool_size := None; pool_lifetime := None |})
  end.

(** ** The configuration directives and the request *)

(** [ldap_setup], as it leaves the request methods: the manager is built,
    and [get_connector] is added under the name of the realm's connector. *)
Definition ldap_setup (lib : Ldap3) (uri : uri_arg) (bind passwd : pyval)
    (use_tls : Tls) (use_pool : bool) (pool_size pool_lifetime : option Z)
    (get_info : option str) (realm : option str) (request_methods : Request)
    : Result Request :=
  match ConnectionManager__init__ lib uri bind passwd use_tls use_pool
          (if use_pool then pool_size else None)
          (if use_pool then pool_lifetime else None) get_info realm with
  | Raise e => Raise e
  | Ok (_, manager) =>
    Ok (<[_registry_identifier (lit "ldap_connector") realm :=
            new_Connector manager realm]> request_methods)
  end.

End ConnectionManagerInit.

(** [get_ldap_connector]; [ldap3_missing] tells whether the import of ldap3
    failed ([LDAPException is Exception]). *)
Definition get_ldap_connector (ldap3_missing : bool) (request : Request)
    (realm : option str) : Result Connector :=
  match request !! get_ldap_connector_name realm with
  | Some connector => Ok connector
  | None =>
    if ldap3_missing
    then Raise (OtherError "ImportError")
    else Raise (ConfigurationError
                  "You must call Configurator.ldap_setup during setup to use an LDAP connector.")
  end.

Section Groupfinder.

Variable py_format : str -> list (str * pyval) -> Result str.

(** [get_groups]: the connector of the unset realm is asked. *)
Definition get_groups (ldap3_missing : bool) (userdn : pyval)
    (request : Request) : M (Registry * World) (option result_set) :=
  connector <- of_result (get_ldap_connector ldap3_missing request None) ;;
  user_groups py_format connector userdn.

(** [groupfinder]: [None] and the empty list are returned as they are. *)
Definition groupfinder (ldap3_missing : bool) (userdn : pyval)
    (request : Request) : M (Registry * World) (option (list str)) :=
  groups <- get_groups ldap3_missing userdn request ;;
  match groups with
  | Some (r :: rest) => ret (Some (List.map fst (r :: rest)))
  | Some [] => ret (Some [])
  | None => ret None
  end.

End Groupfinder.

(** ** More names for the statements *)

(** The port of a URI that names none, or none that [int] accepts. *)
Definition default_port (use_ssl : bool) : Z :=
  if use_ssl then 636%Z else 389%Z.

(** A character of the table of [escape_for_search]. *)
Definition in_table (c : N) : bool :=
  (c =? STAR) || (c =? LPAREN) || (c =? RPAREN) || (c =? BACKSLASH)
  || (c =? NUL).

(** The number of characters of [s] that are in the table. *)
Definition count_table (s : str) : nat := length (List.filter in_table s).

(** A directory whose search returns one entry with the empty DN, and that
    accepts every bind. *)
Definition rootdse_ldap3 : Ldap3 :=
  {| on_Connection := fun _ _ => Ok tt;
     on_enter := fun _ _ => Ok tt;
     on_exit := fun _ _ => Ok tt;
     on_search := fun _ _ _ _ _ _ => Ok 1%Z;
     on_get_response := fun _ _ _ => Ok (Some [SearchResEntry [] []]);
     on_unbind := fun _ _ => Ok tt |}.

Definition rootdse_manager : ConnectionManager :=
  {| ldap3 := rootdse_ldap3; server := [];
     bind_dn := PStr (lit "cn=service"); passwd := PStr (lit "service");
     strategy := REUSABLE; pool_name := Some (lit "pyramid_ldap3");
     pool_size := Some 10%Z; pool_lifetime := Some 3600%Z |}.

(** A directory that cannot be reached: the connection raises. *)
Definition down_ldap3 : Ldap3 :=
  {| on_Connection := fun _ _ => Raise LDAPException;
     on_enter := fun _ _ => Ok tt;
     on_exit := fun _ _ => Ok tt;
     on_search := fun _ _ _ _ _ _ => Ok 1%Z;
     on_get_response := fun _ _ _ => Ok (Some []);
     on_unbind := fun _ _ => Ok tt |}.

Definition down_manager : ConnectionManager :=
  {| ldap3 := down_ldap3; server := [];
     bind_dn := PNone; passwd := PNone;
     strategy := REUSABLE; pool_name := Some (lit "pyramid_ldap3");
     pool_size := Some 10%Z; pool_lifetime := Some 3600%Z |}.

(** Instances of the runtime functions for the examples: [int] on strings
    of decimal digits, and the whitespace of ASCII. *)
Fixpoint digits_value (acc : Z) (s : str) : option Z :=
  match s with
  | [] => Some acc
  | c :: rest =>
    if (48 <=? c) && (c <=? 57)
    then digits_value (10 * acc + Z.of_N (c - 48)) rest
    else None
  end.

Definition digits_int (s : str) : option Z :=
  match s with
  | [] => None
  | _ => digits_value 0 s
  end.

Definition ascii_isspace (c : N) : bool :=
  ((9 <=? c) && (c <=? 13)) || (c =? 32).

(** The library accepting every endpoint. *)
Definition any_Server (a : ServerArgs bool) : Result Server :=
  Ok {| host := sa_host a; port := sa_port a; use_ssl := sa_use_ssl a |}.

(** The setup of the realm [corp] on two servers, without a pool. *)
Definition corp_setup : Result Request :=
  ldap_setup bool digits_int ascii_isspace any_Server example_ldap3
    (UriStr (lit "ldap://a ldaps://b:1636")) (PStr (lit "cn=service"))
    (PStr (lit "service")) false false (Some 10%Z) (Some 3600%Z) None
    (Some (lit "corp")) ∅.

(** [unbind] calls in a log. *)
Definition is_unbind (ev : Event) : bool :=
  match ev with EUnbind _ => true | _ => false end.

(** A directory whose search returns one entry with the empty DN, and that
    rejects every direct bind: only the manager's own connection, which is
    not synchronous, is accepted. *)
Definition strict_rootdse_ldap3 : Ldap3 :=
  {| on_Connection := fun _ args =>
       match ca_client_strategy args with
       | SYNC => Raise LDAPException
       | _ => Ok tt
       end;
     on_enter := fun _ _ => Ok tt;
     on_exit := fun _ _ => Ok tt;
     on_search := fun _ _ _ _ _ _ => Ok 1%Z;
     on_get_response := fun _ _ _ => Ok (Some [SearchResEntry [] []]);
     on_unbind := fun _ _ => Ok tt |}.

Definition strict_rootdse_manager : ConnectionManager :=
  {| ldap3 := strict_rootdse_ldap3; server := [];
     bind_dn := PStr (lit "cn=service"); passwd := PStr (lit "service");
     strategy := REUSABLE; pool_name := Some (lit "pyramid_ldap3");
     pool_size := Some 10%Z; pool_lifetime := Some 3600%Z |}.

(** * Properties *)

(** ** The sanitizer *)

(** Case analysis on the next comparison of [c] with a table key. *)
Ltac case_key c :=
  match goal with
  | |- context [c =? ?k] => destruct (N.eqb_spec c k) as [-> | ?]
  end.

Lemma escape_char_table (c : N) :
  escape_char c =
    if c =? STAR then lit "\2A"
    else if c =? LPAREN then lit "\28"
    else if c =? RPAREN then lit "\29"
    else if c =? BACKSLASH then lit "\5C"
    else if c =? NUL then lit "\00"
    else [c].
Proof.
  unfold escape_char, _escape_for_search.
  rewrite !list_to_map_cons, list_to_map_nil.
  repeat (case_key c;
          [ vm_compute; reflexivity | rewrite lookup_insert_ne by congruence ]).
  rewrite lookup_empty. reflexivity.
Qed.

(** Reading an escaped character back gives the character. *)
Lemma unescape_escape_char (c : N) (rest : str) :
  unescape (escape_char c ++ rest) = cons c <$> unescape rest.
Proof.
  rewrite escape_char_table.
  repeat (case_key c; [ reflexivity | ]).
  cbn [app unescape].
  repeat match goal with
         | H : c <> ?k |- _ => apply N.eqb_neq in H; rewrite H; clear H
         end.
  reflexivity.
Qed.

Lemma unescape_join_escape_char (s : str) :
  unescape (join escape_char s) = Some s.
Proof.
  induction s as [| c s IH]; [ reflexivity | ].
  unfold join in *. cbn [List.map List.concat].
  rewrite unescape_escape_char, IH. reflexivity.
Qed.

(** None of [*], [(], [)] and NUL is a character of an escape sequence or of
    a character passed through. *)
Lemma escape_char_no_special (c x : N) :
  In x (escape_char c) ->
  x <> STAR /\ x <> LPAREN /\ x <> RPAREN /\ x <> NUL.
Proof.
  rewrite escape_char_table.
  repeat (case_key c;
          [ cbn; intros H;
            repeat (destruct H as [<- | H]; [ repeat split; discriminate | ]);
            destruct H | ]).
  intros [<- | []]. repeat split; assumption.
Qed.

Lemma only_table_escapes_escape_char (c : N) (rest : str) :
  only_table_escapes (escape_char c ++ rest) = only_table_escapes rest.
Proof.
  rewrite escape_char_table.
  repeat (case_key c; [ reflexivity | ]).
  cbn [app only_table_escapes].
  repeat match goal with
         | H : c <> ?k |- _ => apply N.eqb_neq in H; rewrite H; clear H
         end.
  reflexivity.
Qed.

(** C4. For every text input [s], [escape_for_search] replaces each
    character of the table ([*] by [\2A], [(] by [\28], [)] by [\29],
    backslash by [\5C], NUL by [\00]) by its escape sequence and passes every
    other character through; in the output [*], [(], [)] and NUL do not
    occur, every backslash starts one of the five escape sequences, and
    reading the escapes back gives [s]; an empty [str], empty [bytes] and
    [None] are returned unchanged. *)
Theorem escape_for_search_text (s : str) :
  escape_for_search (PStr s) = PStr (join escape_char s)
  /\ (forall c : N,
        escape_char c =
          if c =? STAR then lit "\2A"
          else if c =? LPAREN then lit "\28"
          else if c =? RPAREN then lit "\29"
          else if c =? BACKSLASH then lit "\5C"
          else if c =? NUL then lit "\00"
          else [c])
  /\ (forall x : N, In x (join escape_char s) ->
        x <> STAR /\ x <> LPAREN /\ x <> RPAREN /\ x <> NUL)
  /\ only_table_escapes (join escape_char s) = true
  /\ unescape (join escape_char s) = Some s
  /\ escape_for_search (PStr []) = PStr []
  /\ escape_for_search (PBytes []) = PBytes []
  /\ escape_for_search PNone = PNone.
Proof.
  split; [ destruct s; reflexivity | ].
  split; [ apply escape_char_table | ].
  split.
  { intros x Hx. unfold join in Hx. apply in_concat in Hx.
    destruct Hx as (t & Ht & Hx). apply in_map_iff in Ht.
    destruct Ht as (c & <- & _). exact (escape_char_no_special c x Hx). }
  split.
  { induction s as [| c s IH]; [ reflexivity | ].
    unfold join in *. cbn [List.map List.concat].
    rewrite only_table_escapes_escape_char. exact IH. }
  split; [ apply unescape_join_escape_char | ].
  repeat split.
Qed.

(** Bytes that are UTF-8 are decoded and escaped as text. *)
Lemma escape_for_search_decodable_bytes (bs : list byte) (u : str) :
  bs <> [] -> utf8_decode bs = Some u ->
  escape_for_search (PBytes bs) = PStr (join escape_char u).
Proof.
  intros Hne Hu. destruct bs as [| b bs]; [ congruence | ].
  unfold escape_for_search. cbn [truthy negb]. rewrite Hu. reflexivity.
Qed.

Example utf8_decode_euro : utf8_decode [xe2; x82; xac] = Some [8364].
Proof. reflexivity. Qed.

Example utf8_decode_four_bytes :
  utf8_decode [xf0; x9f; x98; x80] = Some [128512].
Proof. reflexivity. Qed.

Example utf8_decode_overlong : utf8_decode [xc0; x80] = None.
Proof. reflexivity. Qed.

Example utf8_decode_surrogate : utf8_decode [xed; xa0; x80] = None.
Proof. reflexivity. Qed.

Example utf8_decode_truncated : utf8_decode [x61; xe2; x82] = None.
Proof. reflexivity. Qed.

Example escape_for_search_filter :
  escape_for_search (PStr (lit "a*(b)\c"))
  = PStr (lit "a\2A\28b\29\5Cc").
Proof. reflexivity. Qed.

Example escape_for_search_utf8_bytes :
  escape_for_search (PBytes [xc3; xa9; x2a]) = PStr ([233] ++ lit "\2A").
Proof. reflexivity. Qed.

Lemma percent_02x_shape (b : byte) :
  exists h l : N,
    percent_02x b = [BACKSLASH; h; l]
    /\ is_lower_hex h = true /\ is_lower_hex l = true
    /\ hex_value h = Some (Byte.to_N b / 16)
    /\ hex_value l = Some (Byte.to_N b mod 16).
Proof.
  exists (hex_digit (Byte.to_N b / 16)), (hex_digit (Byte.to_N b mod 16)).
  destruct b; repeat split.
Qed.

Lemma hex_decode_percent_02x (b : byte) (rest : str) :
  hex_decode (percent_02x b ++ rest) =
    match hex_decode rest with
    | Some bs => Some (b :: bs)
    | None => None
    end.
Proof. destruct b; reflexivity. Qed.

Lemma hex_decode_join_percent_02x (bs : list byte) :
  hex_decode (join percent_02x bs) = Some bs.
Proof.
  induction bs as [| b bs IH]; [ reflexivity | ].
  unfold join in *. cbn [List.map List.concat].
  rewrite hex_decode_percent_02x, IH. reflexivity.
Qed.

(** C9. For every byte sequence that fails UTF-8 decoding,
    [escape_for_search] returns the concatenation, in order, of one escape
    per input byte, each a backslash followed by the two lowercase
    hexadecimal digits of the byte, with no character-level escaping on
    top; hex-decoding that string gives back the byte sequence. *)
Theorem escape_for_search_undecodable_bytes (bs : list byte) :
  utf8_decode bs = None ->
  escape_for_search (PBytes bs) = PStr (join percent_02x bs)
  /\ Forall (fun b => exists h l : N,
               percent_02x b = [BACKSLASH; h; l]
               /\ is_lower_hex h = true /\ is_lower_hex l = true
               /\ hex_value h = Some (Byte.to_N b / 16)
               /\ hex_value l = Some (Byte.to_N b mod 16)) bs
  /\ length (join percent_02x bs) = (3 * length bs)%nat
  /\ hex_decode (join percent_02x bs) = Some bs.
Proof.
  intros Hfail. split.
  { destruct bs as [| b bs]; [ discriminate Hfail | ].
    unfold escape_for_search. cbn [truthy negb]. rewrite Hfail. reflexivity. }
  split.
  { apply List.Forall_forall. intros b _. apply percent_02x_shape. }
  split.
  { clear Hfail. induction bs as [| b bs IH]; [ reflexivity | ].
    unfold join in *. cbn [List.map List.concat].
    rewrite length_app, IH. cbn [percent_02x length]. lia. }
  apply hex_decode_join_percent_02x.
Qed.

(** The bytes [ff 2a] are not UTF-8; they are escaped as [\ff\2a]. *)
Lemma escape_for_search_undecodable_bytes_witness :
  utf8_decode [xff; x2a] = None
  /\ escape_for_search (PBytes [xff; x2a]) = PStr (lit "\ff\2a")
  /\ hex_decode (lit "\ff\2a") = Some [xff; x2a].
Proof.
  split; [ reflexivity | ].
  destruct (escape_for_search_undecodable_bytes [xff; x2a] eq_refl)
    as (H1 & _ & _ & H2).
  split; [ exact H1 | exact H2 ].
Defined.

(** ** The query and its cache *)

Lemma timeslice_bucket (period : Z) (t : Q) :
  period <> 0%Z -> _timeslice period t = Ok (bucket period t).
Proof.
  intros Hp. unfold _timeslice, bucket.
  destruct (Z.eqb_spec period 0); [ contradiction | reflexivity ].
Qed.

(** [query_cache] on a query with a nonzero period: the bucket of the
    current time is compared with the stored one; a greater bucket empties
    the whole mapping and becomes the stored one. *)
Lemma query_cache_cases (key : str * str) (q : LDAPQuery) (w : World) :
  cache_period q <> 0%Z ->
  query_cache key (q, w) =
    if Qgtb (bucket (cache_period q) (now w)) (last_timeslice q)
    then (Ok None, (dump_cache (bucket (cache_period q) (now w)) q, w))
    else (Ok (cache q !! key), (q, w)).
Proof.
  intros Hp. unfold query_cache, bind, get_self, in_world, time, of_result.
  cbn [fst snd]. rewrite (timeslice_bucket _ _ Hp).
  destruct (Qgtb _ _); reflexivity.
Qed.

Section Query.

Variable py_format : str -> list (str * pyval) -> Result str.

(** The end of [execute], from the search on. *)
Lemma after_miss_bind (manager : ConnectionManager) (self q0 : LDAPQuery)
    (key : str * str) (w : World) :
  (response <- in_world (search_directory manager self key) ;;
   match response with
   | None => ret []
   | Some records =>
     (if (cache_period self =? 0)%Z then ret tt
      else modify_self (store key (dn_attributes records))) ;;;
     ret (dn_attributes records)
   end) (q0, w)
  = after_miss manager self key q0 w.
Proof.
  unfold after_miss, bind at 1, in_world. cbn [fst snd].
  destruct (search_directory manager self key w) as [[[records |] | e] w'];
    [ | reflexivity | reflexivity ].
  unfold bind, modify_self, ret.
  destruct (cache_period self =? 0)%Z; reflexivity.
Qed.

(** [execute], once the templates are filled: a period of 0 goes to the
    directory; otherwise the cache is flushed if the bucket has advanced,
    and read. *)
Lemma execute_cases (manager : ConnectionManager) (kw : list (str * pyval))
    (q : LDAPQuery) (w : World) (base filter : str) :
  py_format (base_dn q) kw = Ok base ->
  py_format (filter_tmpl q) kw = Ok filter ->
  execute py_format manager kw (q, w) =
    if (cache_period q =? 0)%Z then after_miss manager q (base, filter) q w
    else if Qgtb (bucket (cache_period q) (now w)) (last_timeslice q)
    then after_miss manager q (base, filter)
           (dump_cache (bucket (cache_period q) (now w)) q) w
    else match cache q !! (base, filter) with
         | Some result => (Ok result, (q, w))
         | None => after_miss manager q (base, filter) q w
         end.
Proof.
  intros Hb Hf. unfold execute.
  unfold bind at 1. unfold get_self at 1. cbn [fst snd].
  unfold bind at 1. unfold of_result at 1. rewrite Hb.
  unfold bind at 1. unfold of_result at 1. rewrite Hf.
  unfold bind at 1.
  pose proof (fun q0 => after_miss_bind manager q q0 (base, filter) w) as Hmiss.
  revert Hmiss.
  destruct (Z.eqb_spec (cache_period q) 0) as [Hp | Hp]; intros Hmiss.
  - unfold ret at 1. apply Hmiss.
  - rewrite (query_cache_cases _ _ _ Hp).
    destruct (Qgtb _ _).
    + apply Hmiss.
    + destruct (cache q !! (base, filter)) as [result |].
      * reflexivity.
      * apply Hmiss.
Qed.









(** The mapped result, read back as records, is the list of the records
    that carry a DN, in the order of the response. *)
Lemma dn_attributes_filter (records : list response_record) :
  List.map as_entry (dn_attributes records) = List.filter has_dn records.
Proof.
  induction records as [| [dn attrs | uri] records IH]; cbn;
    [ reflexivity | rewrite IH; reflexivity | exact IH ].
Qed.

(** C7.  When [execute] does not find the key in the cache and the search
    on the directory gives a response, the result is made of the records of
    the response that carry a DN, each as its [(dn, attributes)] pair, in the
    order of the response, the records without a DN being left out; a null
    response and an empty response give the empty sequence, and no error. *)
Theorem execute_maps_response
    (manager : ConnectionManager) (kw : list (str * pyval))
    (q : LDAPQuery) (w w' : World) (base filter : str)
    (response : option (list response_record)) :
  py_format (base_dn q) kw = Ok base ->
  py_format (filter_tmpl q) kw = Ok filter ->
  cache_period q = 0%Z \/ fst (query_cache (base, filter) (q, w)) = Ok None ->
  search_directory manager q (base, filter) w = (Ok response, w') ->
  fst (execute py_format manager kw (q, w)) = Ok (mapped response)
  /\ snd (snd (execute py_format manager kw (q, w))) = w'
  /\ (forall records : list response_record,
        response = Some records ->
        List.map as_entry (mapped response) = List.filter has_dn records)
  /\ (response = None \/ response = Some [] -> mapped response = []).
Proof.
  intros Hb Hf Hmiss Hsearch.
  assert (Hafter : forall q0 : LDAPQuery,
            fst (after_miss manager q (base, filter) q0 w) = Ok (mapped response)
            /\ snd (snd (after_miss manager q (base, filter) q0 w)) = w').
  { intros q0. unfold after_miss. rewrite Hsearch.
    destruct response; split; reflexivity. }
  assert (Hexec : fst (execute py_format manager kw (q, w)) = Ok (mapped response)
                  /\ snd (snd (execute py_format manager kw (q, w))) = w').
  { rewrite (execute_cases _ _ _ _ _ _ Hb Hf).
    destruct (Z.eqb_spec (cache_period q) 0) as [Hp | Hp]; [ apply Hafter | ].
    destruct Hmiss as [? | Hmiss]; [ contradiction | ].
    rewrite (query_cache_cases _ _ _ Hp) in Hmiss.
    destruct (Qgtb _ _); [ apply Hafter | ].
    cbn [fst] in Hmiss. injection Hmiss as ->. apply Hafter. }
  destruct Hexec as [Hres Hworld].
  split; [ exact Hres | ]. split; [ exact Hworld | ]. split.
  - intros records ->. apply dn_attributes_filter.
  - intros [-> | ->]; reflexivity.
Qed.

(** The search reads the scope and the attribute list of the query, not
    its cache. *)
Lemma search_directory_with_cache_state (manager : ConnectionManager)
    (ts : Q) (c : gmap (str * str) result_set) (q : LDAPQuery)
    (key : str * str) (w : World) :
  search_directory manager (with_cache_state ts c q) key w
  = search_directory manager q key w.
Proof. reflexivity. Qed.

(** [execute] on a query whose period is 0. *)
Lemma execute_period_0 (manager : ConnectionManager) (kw : list (str * pyval))
    (q : LDAPQuery) (w : World) :
  cache_period q = 0%Z ->
  execute py_format manager kw (q, w)
  = match py_format (base_dn q) kw with
    | Raise e => (Raise e, (q, w))
    | Ok base =>
      match py_format (filter_tmpl q) kw with
      | Raise e => (Raise e, (q, w))
      | Ok filter =>
        match search_directory manager q (base, filter) w with
        | (Ok response, w') => (Ok (mapped response), (q, w'))
        | (Raise e, w') => (Raise e, (q, w'))
        end
      end
    end.
Proof.
  intros Hp.
  destruct (py_format (base_dn q) kw) as [base | e] eqn:Hb.
  - destruct (py_format (filter_tmpl q) kw) as [filter | e] eqn:Hf.
    + rewrite (execute_cases _ _ _ _ _ _ Hb Hf). rewrite Hp. cbn [Z.eqb].
      unfold after_miss. rewrite Hp. cbn [Z.eqb].
      destruct (search_directory manager q (base, filter) w)
        as [[[records |] | e] w']; reflexivity.
    + unfold execute, bind, get_self, of_result. cbn [fst snd].
      rewrite Hb, Hf. reflexivity.
  - unfold execute, bind, get_self, of_result. cbn [fst snd].
    rewrite Hb. reflexivity.
Qed.

(** C10.  On a query whose period is 0, [execute] is the search on the
    directory and the mapping of its response and nothing else: the query
    object, its cache and its stored bucket come out as they went in, the
    result and the calls made are the same whatever the cache holds, every
    execution whose templates are filled calls the directory, and no store
    occurs.  The bucket computation, which divides by the period and would
    raise [ZeroDivisionError], as [query_cache] would, is not reached. *)
Theorem execute_without_cache
    (manager : ConnectionManager) (kw : list (str * pyval))
    (q : LDAPQuery) (w : World) :
  cache_period q = 0%Z ->
  execute py_format manager kw (q, w)
  = match py_format (base_dn q) kw with
    | Raise e => (Raise e, (q, w))
    | Ok base =>
      match py_format (filter_tmpl q) kw with
      | Raise e => (Raise e, (q, w))
      | Ok filter =>
        match search_directory manager q (base, filter) w with
        | (Ok response, w') => (Ok (mapped response), (q, w'))
        | (Raise e, w') => (Raise e, (q, w'))
        end
      end
    end
  /\ fst (snd (execute py_format manager kw (q, w))) = q
  /\ (forall (ts : Q) (c : gmap (str * str) result_set),
        fst (execute py_format manager kw (with_cache_state ts c q, w))
        = fst (execute py_format manager kw (q, w))
        /\ snd (snd (execute py_format manager kw (with_cache_state ts c q, w)))
           = snd (snd (execute py_format manager kw (q, w))))
  /\ (forall base filter : str,
        py_format (base_dn q) kw = Ok base ->
        py_format (filter_tmpl q) kw = Ok filter ->
        exists rest : list Event,
          log (snd (snd (execute py_format manager kw (q, w))))
          = log w ++ EConnection (service_bind manager) :: rest)
  /\ _timeslice (cache_period q) (now w) = Raise ZeroDivisionError
  /\ (forall key : str * str,
        query_cache key (q, w) = (Raise ZeroDivisionError, (q, w))).
Proof.
  intros Hp. pose proof (execute_period_0 manager kw q w Hp) as Heq.
  split; [ exact Heq | ]. split; [ | split; [ | split; [ | split ] ] ].
  - rewrite Heq.
    destruct (py_format (base_dn q) kw); [ | reflexivity ].
    destruct (py_format (filter_tmpl q) kw); [ | reflexivity ].
    destruct (search_directory manager q _ w) as [[response | e] w'];
      reflexivity.
  - intros ts c.
    rewrite Heq, (execute_period_0 manager kw (with_cache_state ts c q) w Hp).
    clear Heq. cbn [with_cache_state base_dn filter_tmpl].
    destruct (py_format (base_dn q) kw) as [base |]; [ | split; reflexivity ].
    destruct (py_format (filter_tmpl q) kw) as [filter |];
      [ | split; reflexivity ].
    rewrite search_directory_with_cache_state.
    destruct (search_directory manager q (base, filter) w)
      as [[response | e] w']; split; reflexivity.
  - intros base filter Hb Hf. rewrite Heq, Hb, Hf.
    unfold search_directory, with_as, bind, connection, Connection, call.
    cbn [truthy]. fold (service_bind manager).
    destruct (on_Connection _ _ _) as [[] | e]; [ | eexists; reflexivity ].
    destruct (on_enter _ _ _) as [[] | e].
    + unfold conn_search, conn_get_response, call. cbn [fst snd].
      destruct (on_search _ _ _ _ _ _ _) as [msg | e];
        [ destruct (on_get_response _ _ _ _) as [response | e] | ];
        destruct (on_exit _ _ _) as [[] | e'];
        cbn [log record snd fst]; rewrite <- ?app_assoc; eexists; reflexivity.
    + cbn [log record snd fst]. rewrite <- ?app_assoc. eexists. reflexivity.
  - unfold _timeslice. rewrite Hp. reflexivity.
  - intros key. unfold query_cache, bind, get_self, in_world, time, of_result.
    cbn [fst snd]. unfold _timeslice. rewrite Hp. reflexivity.
Qed.

End Query.

(** ** The facade *)

Section Facade.

Variable py_format : str -> list (str * pyval) -> Result str.

(** C1. For every login, every connector and every state of the registry
    and of the world (a registry without a login query included),
    [authenticate(login, '')] returns [None], raises nothing, and leaves the
    registry and the log of directory calls as they were: the check of the
    empty password comes before every other step. *)
Theorem authenticate_empty_password
    (self : Connector) (login : pyval) (registry : Registry) (w : World) :
  authenticate py_format self login (PStr []) (registry, w)
  = (Ok None, (registry, w)).
Proof. reflexivity. Qed.

(** [authenticate] with a password other than [''] and a registered login
    query: the query is executed, and what follows depends on its result. *)
Lemma authenticate_after_execute
    (self : Connector) (login password : pyval) (registry : Registry)
    (w : World) (search search' : LDAPQuery) (r : Result result_set)
    (w' : World) :
  password <> PStr [] ->
  registry !! login_qry_identif self = Some search ->
  execute py_format (manager self) (login_kw login password) (search, w)
  = (r, (search', w')) ->
  authenticate py_format self login password (registry, w)
  = match r with
    | Raise e => (Raise e, (<[login_qry_identif self := search']> registry, w'))
    | Ok result =>
      (if negb (match result with [] => false | _ => true end)
          || (1 <? length result)%nat
       then ret None
       else
         match result with
         | [] => raise (OtherError "IndexError")
         | result0 :: _ =>
           try_except_LDAPException
             (in_world
                (conn <- connection (manager self) (PStr (fst result0))
                           password ;;
                 conn_unbind (ldap3 (manager self)) conn) ;;;
              ret (Some result0))
             (ret None)
         end)
        (<[login_qry_identif self := search']> registry, w')
    end.
Proof.
  intros Hpw Hreg Hexec. unfold authenticate, py_eqb.
  rewrite bool_decide_eq_false_2 by exact Hpw.
  unfold bind at 1. unfold getattr. cbn [fst snd]. rewrite Hreg.
  unfold bind at 1. unfold on_attr. cbn [fst snd].
  fold (login_kw login password). rewrite Hexec.
  destruct r; reflexivity.
Qed.

(** C2. For every login and every password other than [''], when the
    execution of the registered login query returns no record or more than
    one, [authenticate] returns [None] and makes no call beyond those of the
    query, whatever a bind as one of the matches would answer; when it
    returns exactly one record, the next call is the connection bound as that
    record's DN with the supplied password. *)
Theorem authenticate_requires_unique_match
    (self : Connector) (login password : pyval) (registry : Registry)
    (w : World) (search search' : LDAPQuery) (result : result_set)
    (w' : World) :
  password <> PStr [] ->
  registry !! login_qry_identif self = Some search ->
  execute py_format (manager self) (login_kw login password) (search, w)
  = (Ok result, (search', w')) ->
  (length result <> 1%nat ->
   authenticate py_format self login password (registry, w)
   = (Ok None, (<[login_qry_identif self := search']> registry, w')))
  /\ (forall (dn : str) (attrs : attrdict),
        result = [(dn, attrs)] -> dn <> [] ->
        exists rest : list Event,
          log (snd (snd (authenticate py_format self login password
                           (registry, w))))
          = log w' ++ EConnection (direct_bind (manager self) (PStr dn) password)
                   :: rest).
Proof.
  intros Hpw Hreg Hexec.
  rewrite (authenticate_after_execute _ _ _ _ _ _ _ _ _ Hpw Hreg Hexec).
  split.
  - intros Hlen. destruct result as [| r0 [| r1 result]];
      [ reflexivity | cbn in Hlen; congruence | reflexivity ].
  - intros dn attrs -> Hdn. cbn [negb orb length Nat.ltb Nat.leb fst].
    unfold try_except_LDAPException, bind, in_world, connection, Connection.
    destruct dn as [| c dn]; [ congruence | ]. cbn [truthy snd fst].
    fold (direct_bind (manager self) (PStr (c :: dn)) password).
    destruct (on_Connection _ _ _) as [[] | e].
    + unfold conn_unbind, call.
      destruct (on_unbind _ _ _) as [[] | []]; cbn;
        eexists; rewrite <- app_assoc; reflexivity.
    + destruct e; cbn; eexists; reflexivity.
Qed.

(** C3, as the code has it.  When the login query returns exactly one
    record, of a DN [dn] that is not empty, the connection opened next is the
    direct one bound as [dn] with the supplied password.  If creating it
    raises an LDAP exception (the bind is rejected), [authenticate] catches
    it and returns [None]; that call is the only one made, so [unbind] is not
    called: no connection object exists.  If the connection is created,
    [unbind] is called on it at once and is the last call: when [unbind]
    raises an LDAP exception the result is [None] again, nothing raised, and
    when it returns the result is the matched [(dn, attrs)] pair. *)
Theorem authenticate_bind_outcome
    (self : Connector) (login password : pyval) (registry : Registry)
    (w : World) (search search' : LDAPQuery) (dn : str) (attrs : attrdict)
    (w' : World) :
  password <> PStr [] ->
  registry !! login_qry_identif self = Some search ->
  execute py_format (manager self) (login_kw login password) (search, w)
  = (Ok [(dn, attrs)], (search', w')) ->
  dn <> [] ->
  let lib := ldap3 (manager self) in
  let args := direct_bind (manager self) (PStr dn) password in
  let conn := length (log w') in
  let registry' := <[login_qry_identif self := search']> registry in
  let w_conn := record (EConnection args) w' in
  let after := authenticate py_format self login password (registry, w) in
  (on_Connection lib w' args = Raise LDAPException ->
   after = (Ok None, (registry', w_conn))
   /\ log (snd (snd after)) = log w' ++ [EConnection args])
  /\ (on_Connection lib w' args = Ok tt ->
      on_unbind lib w_conn conn = Raise LDAPException ->
      after = (Ok None, (registry', record (EUnbind conn) w_conn))
      /\ log (snd (snd after)) = log w' ++ [EConnection args; EUnbind conn])
  /\ (on_Connection lib w' args = Ok tt ->
      on_unbind lib w_conn conn = Ok tt ->
      after = (Ok (Some (dn, attrs)), (registry', record (EUnbind conn) w_conn))
      /\ log (snd (snd after)) = log w' ++ [EConnection args; EUnbind conn]).
Proof.
  intros Hpw Hreg Hexec Hdn lib args conn registry' w_conn after.
  subst after.
  rewrite (authenticate_after_execute _ _ _ _ _ _ _ _ _ Hpw Hreg Hexec).
  cbn [negb orb length Nat.ltb Nat.leb fst].
  unfold try_except_LDAPException, bind, in_world, connection, Connection.
  destruct dn as [| c dn]; [ congruence | ]. cbn [truthy snd fst].
  fold (direct_bind (manager self) (PStr (c :: dn)) password).
  fold args. fold lib.
  split; [ | split ].
  - intros ->. split; reflexivity.
  - intros -> Hunbind. unfold conn_unbind, call. fold w_conn. fold conn.
    rewrite Hunbind. split; [ reflexivity | ].
    subst w_conn. unfold record. cbn [snd log].
    rewrite <- app_assoc. reflexivity.
  - intros -> Hunbind. unfold conn_unbind, call. fold w_conn. fold conn.
    rewrite Hunbind. split; [ reflexivity | ].
    subst w_conn. unfold record. cbn [snd log].
    rewrite <- app_assoc. reflexivity.
Qed.

(** [user_groups] with a registered groups query: the query is executed;
    an LDAP exception becomes [None], any other exception goes on, a result
    is returned as it is. *)
Lemma user_groups_after_execute
    (self : Connector) (userdn : pyval) (registry : Registry) (w : World)
    (search search' : LDAPQuery) (r : Result result_set) (w' : World) :
  registry !! group_qry_identif self = Some search ->
  execute py_format (manager self) (groups_kw userdn) (search, w)
  = (r, (search', w')) ->
  user_groups py_format self userdn (registry, w)
  = (match r with
     | Ok result => Ok (Some result)
     | Raise LDAPException => Ok None
     | Raise e => Raise e
     end, (<[group_qry_identif self := search']> registry, w')).
Proof.
  intros Hreg Hexec. unfold user_groups.
  unfold bind at 1. unfold getattr. cbn [fst snd]. rewrite Hreg.
  unfold try_except_LDAPException, bind, on_attr. cbn [fst snd].
  fold (groups_kw userdn). rewrite Hexec.
  destruct r as [result | []]; reflexivity.
Qed.

(** C6, as the code has it.  For every DN, when the execution of the
    registered groups query raises an LDAP exception, [user_groups] catches
    it and returns [None]; when the execution returns, [user_groups] returns
    the result sequence unchanged.  A user without groups therefore gets the
    empty sequence, which is not [None]. *)
Theorem user_groups_outcome
    (self : Connector) (userdn : pyval) (registry : Registry) (w : World)
    (search search' : LDAPQuery) (r : Result result_set) (w' : World) :
  registry !! group_qry_identif self = Some search ->
  execute py_format (manager self) (groups_kw userdn) (search, w)
  = (r, (search', w')) ->
  let registry' := <[group_qry_identif self := search']> registry in
  (r = Raise LDAPException ->
   user_groups py_format self userdn (registry, w) = (Ok None, (registry', w')))
  /\ (forall result : result_set,
        r = Ok result ->
        user_groups py_format self userdn (registry, w)
        = (Ok (Some result), (registry', w')))
  /\ (r = Ok [] ->
      fst (user_groups py_format self userdn (registry, w)) <> Ok None).
Proof.
  intros Hreg Hexec registry'.
  rewrite (user_groups_after_execute _ _ _ _ _ _ _ _ Hreg Hexec).
  repeat split.
  - intros ->. reflexivity.
  - intros result ->. reflexivity.
  - intros ->. discriminate.
Qed.

(** C8, as the code has it.  For every realm, the unset one included: when
    the realm's login query is not in the registry, [authenticate] with a
    password other than [''] raises [ConfigurationError]; when the realm's
    groups query is not in the registry, [user_groups] raises
    [ConfigurationError].  The exception reaches the caller, and nothing has
    been called or changed. *)
Theorem unregistered_query_raises
    (manager : ConnectionManager) (realm : option str)
    (login password userdn : pyval) (registry : Registry) (w : World) :
  let self := new_Connector manager realm in
  (password <> PStr [] ->
   registry !! login_qry_identif self = None ->
   authenticate py_format self login password (registry, w)
   = (Raise (ConfigurationError
               "ldap_set_login_query was not called during setup"),
      (registry, w)))
  /\ (registry !! group_qry_identif self = None ->
      user_groups py_format self userdn (registry, w)
      = (Raise (ConfigurationError
                  "set_ldap_groups_query was not called during setup"),
         (registry, w))).
Proof.
  intros self. split.
  - intros Hpw Hreg. unfold authenticate, py_eqb.
    rewrite bool_decide_eq_false_2 by exact Hpw.
    unfold bind, getattr. cbn [fst snd]. rewrite Hreg. reflexivity.
  - intros Hreg. unfold user_groups, bind, getattr. cbn [fst snd].
    rewrite Hreg. reflexivity.
Qed.

End Facade.

(** ** Registry identifiers and realms *)

(** Two realms share an identifier only if they are the same realm, the
    empty realm counting as the unset one. *)
Lemma _registry_identifier_inj (base : str) (r1 r2 : option str) :
  _registry_identifier base r1 = _registry_identifier base r2 ->
  realm_key r1 = realm_key r2.
Proof.
  assert (Hlonger : forall (c : N) (r : str), base ++ lit "_" ++ c :: r <> base).
  { intros c r H. apply (f_equal (@length N)) in H.
    rewrite length_app in H. cbn in H. lia. }
  destruct r1 as [[| c1 r1] |], r2 as [[| c2 r2] |]; cbn;
    intros H; try reflexivity;
    try (exfalso; exact (Hlonger _ _ H));
    try (exfalso; symmetry in H; exact (Hlonger _ _ H)).
  apply app_inv_head in H. injection H as -> ->. reflexivity.
Qed.

(** The identifier of a login query is never the identifier of a groups
    query. *)
Lemma login_groups_identifiers_differ (r1 r2 : option str) :
  _registry_identifier (lit "ldap_login_query") r1
  <> _registry_identifier (lit "ldap_groups_query") r2.
Proof.
  destruct r1 as [[| c1 r1] |], r2 as [[| c2 r2] |]; cbn; discriminate.
Qed.

(** Registering the queries of other realms leaves the login query of a
    realm unregistered. *)
Lemma other_realms_leave_unregistered
    (realm realm' realm'' : option str) (registry : Registry)
    (b f b' f' : str) (sc sc' : search_scope) (a a' : option (list str))
    (p p' : Z) :
  realm_key realm' <> realm_key realm ->
  registry !! _registry_identifier (lit "ldap_login_query") realm = None ->
  ldap_set_groups_query b' f' sc' a' p' realm''
    (ldap_set_login_query b f sc a p realm' registry)
  !! _registry_identifier (lit "ldap_login_query") realm = None.
Proof.
  intros Hrealm Hnone. unfold ldap_set_groups_query, ldap_set_login_query.
  rewrite lookup_insert_ne
    by (intros H; symmetry in H; exact (login_groups_identifiers_differ _ _ H)).
  rewrite lookup_insert_ne; [ exact Hnone | ].
  intros H. apply Hrealm. exact (_registry_identifier_inj _ _ _ H).
Qed.

(** ** The bucket *)

Lemma bucket_floor (period : Z) (t : Q) :
  (bucket period t == inject_Z period * inject_Z (Qfloor (t / inject_Z period)))%Q.
Proof. unfold bucket, py_mod. ring. Qed.

(** For a positive period the bucket of [t] is the start of the window of
    [period] seconds that holds [t]. *)
Lemma bucket_bounds (period : Z) (t : Q) :
  (0 < period)%Z ->
  (bucket period t <= t)%Q /\ (t < bucket period t + inject_Z period)%Q.
Proof.
  intros Hp.
  assert (HpQ : (0 < inject_Z period)%Q)
    by (unfold Qlt; cbn; lia).
  assert (Hne : ~ (inject_Z period == 0)%Q)
    by (intros H; rewrite H in HpQ; exact (Qlt_irrefl _ HpQ)).
  pose proof (Qmult_div_r t (inject_Z period) Hne) as Ht.
  pose proof (Qfloor_le (t / inject_Z period)) as Hlo.
  pose proof (Qlt_floor (t / inject_Z period)) as Hhi.
  rewrite inject_Z_plus in Hhi.
  rewrite bucket_floor. split.
  - rewrite <- Ht at 2. apply Qmult_le_l; assumption.
  - rewrite <- Ht at 1.
    assert (Hfactor :
      (inject_Z period * inject_Z (Qfloor (t / inject_Z period)) + inject_Z period
       == inject_Z period * (inject_Z (Qfloor (t / inject_Z period)) + inject_Z 1))%Q)
      by ring.
    rewrite Hfactor. apply Qmult_lt_l; assumption.
Qed.

(** ** The properties at work on the example directory *)

(** Runs a computation at a concrete state: [H] states its outcome and
    the state it leaves. *)
Ltac run m H :=
  let v := eval vm_compute in m in
  assert (H : m = v) by (vm_compute; reflexivity).

Lemma example_registry_login :
  example_registry !! login_qry_identif example_connector
  = Some example_login_query.
Proof. vm_compute. reflexivity. Qed.

Lemma example_registry_groups :
  example_registry !! group_qry_identif example_connector
  = Some example_groups_query.
Proof. vm_compute. reflexivity. Qed.

(** Two entries match the login [twin], one of them the entry of alice
    whose password is [secret]: no match, and no bind is tried. *)
Lemma authenticate_requires_unique_match_witness :
  fst (authenticate percent_format example_connector
         (PStr (lit "twin")) (PStr (lit "secret"))
         (example_registry, example_world)) = Ok None
  /\ length (log (snd (snd (authenticate percent_format example_connector
                              (PStr (lit "twin")) (PStr (lit "secret"))
                              (example_registry, example_world))))) = 5%nat.
Proof.
  run
    (execute percent_format (manager example_connector)
       (login_kw (PStr (lit "twin")) (PStr (lit "secret")))
       (example_login_query, example_world)) Hexec.
  destruct (authenticate_requires_unique_match percent_format
              example_connector (PStr (lit "twin")) (PStr (lit "secret"))
              example_registry example_world example_login_query _ _ _
              ltac:(discriminate) example_registry_login Hexec) as [Hnone _].
  rewrite Hnone by (cbn; lia). split; reflexivity.
Defined.

(** The login [alice] matches one entry: a rejected password gives no
    match, the right one gives the entry. *)
Lemma authenticate_bind_outcome_witness :
  fst (authenticate percent_format example_connector
         (PStr (lit "alice")) (PStr (lit "bad"))
         (example_registry, example_world)) = Ok None
  /\ fst (authenticate percent_format example_connector
            (PStr (lit "alice")) (PStr (lit "secret"))
            (example_registry, example_world))
     = Ok (Some (alice_dn, [(lit "cn", [lit "Alice"])])).
Proof.
  split.
  - run
      (execute percent_format (manager example_connector)
         (login_kw (PStr (lit "alice")) (PStr (lit "bad")))
         (example_login_query, example_world)) Hexec.
    destruct (authenticate_bind_outcome percent_format
                example_connector (PStr (lit "alice")) (PStr (lit "bad"))
                example_registry example_world example_login_query _ _ _ _
                ltac:(discriminate) example_registry_login Hexec ltac:(discriminate))
      as (Hrejected & _ & _).
    destruct (Hrejected ltac:(vm_compute; reflexivity)) as [Hafter _].
    rewrite Hafter. reflexivity.
  - run
      (execute percent_format (manager example_connector)
         (login_kw (PStr (lit "alice")) (PStr (lit "secret")))
         (example_login_query, example_world)) Hexec.
    destruct (authenticate_bind_outcome percent_format
                example_connector (PStr (lit "alice")) (PStr (lit "secret"))
                example_registry example_world example_login_query _ _ _ _
                ltac:(discriminate) example_registry_login Hexec ltac:(discriminate))
      as (_ & _ & Hbound).
    destruct (Hbound ltac:(vm_compute; reflexivity)
                ltac:(vm_compute; reflexivity)) as [Hafter _].
    rewrite Hafter. reflexivity.
Defined.

(** A failing direct bind, on two inputs.  Alice with a wrong password:
    the bind is rejected, the result is [None], and among the six calls
    made there is no [unbind], the rejected connection being the last of
    them: nothing is released.  And a directory that rejects every direct
    bind, whose search returns the entry of the empty DN: the bind as that
    DN with the supplied password would fail, yet the entry is returned as
    authenticated, the connection used being the manager's own. *)
Lemma authenticate_bind_rejected_or_empty_dn :
  (let after := authenticate percent_format example_connector
                  (PStr (lit "alice")) (PStr (lit "bad"))
                  (example_registry, example_world) in
   fst after = Ok None
   /\ length (log (snd (snd after))) = 6%nat
   /\ List.filter is_unbind (log (snd (snd after))) = []
   /\ List.last (log (snd (snd after))) (EEnter 0)
      = EConnection (direct_bind example_manager (PStr alice_dn)
                       (PStr (lit "bad"))))
  /\ (let connector := new_Connector strict_rootdse_manager None in
      (forall w : World,
         on_Connection strict_rootdse_ldap3 w
           (direct_bind strict_rootdse_manager (PStr []) (PStr (lit "wrong")))
         = Raise LDAPException)
      /\ fst (execute percent_format strict_rootdse_manager
                (login_kw (PStr (lit "anyone")) (PStr (lit "wrong")))
                (example_login_query, example_world))
         = Ok [([], [])]
      /\ fst (authenticate percent_format connector
                (PStr (lit "anyone")) (PStr (lit "wrong"))
                (example_registry, example_world))
         = Ok (Some ([], []))).
Proof.
  split.
  - vm_compute. split; [ reflexivity | ]. split; [ reflexivity | ].
    split; reflexivity.
  - cbv zeta. split; [ intros w; reflexivity | ].
    split; vm_compute; reflexivity.
Qed.

(** The groups of [uid=down] cannot be read, and [uid=bob] has no group:
    the two answers of [user_groups] differ. *)
Lemma user_groups_failure_differs_from_no_groups :
  fst (execute percent_format example_manager
         (groups_kw (PStr (lit "uid=down")))
         (example_groups_query, example_world)) = Raise LDAPException
  /\ fst (execute percent_format example_manager
            (groups_kw (PStr (lit "uid=bob")))
            (example_groups_query, example_world)) = Ok []
  /\ fst (user_groups percent_format example_connector
            (PStr (lit "uid=down")) (example_registry, example_world))
     = Ok None
  /\ fst (user_groups percent_format example_connector
            (PStr (lit "uid=bob")) (example_registry, example_world))
     = Ok (Some [])
  /\ fst (user_groups percent_format example_connector
            (PStr (lit "uid=down")) (example_registry, example_world))
     <> fst (user_groups percent_format example_connector
               (PStr (lit "uid=bob")) (example_registry, example_world)).
Proof.
  repeat split; try (vm_compute; reflexivity).
  vm_compute. discriminate.
Qed.

(** The groups of [uid=down] cannot be read: [None]; alice is a member of
    [cn=staff]: the sequence of that one group. *)
Lemma user_groups_outcome_witness :
  fst (user_groups percent_format example_connector
         (PStr (lit "uid=down")) (example_registry, example_world)) = Ok None
  /\ fst (user_groups percent_format example_connector
            (PStr alice_dn) (example_registry, example_world))
     = Ok (Some [(lit "cn=staff,ou=groups", [(lit "cn", [lit "staff"])])]).
Proof.
  split.
  - run
      (execute percent_format (manager example_connector)
         (groups_kw (PStr (lit "uid=down")))
         (example_groups_query, example_world)) Hexec.
    destruct (user_groups_outcome percent_format example_connector
                (PStr (lit "uid=down")) example_registry example_world
                example_groups_query _ _ _ example_registry_groups Hexec) as (Hfailed & _ & _).
    rewrite Hfailed by reflexivity. reflexivity.
  - run
      (execute percent_format (manager example_connector)
         (groups_kw (PStr alice_dn))
         (example_groups_query, example_world)) Hexec.
    destruct (user_groups_outcome percent_format example_connector
                (PStr alice_dn) example_registry example_world
                example_groups_query _ _ _ example_registry_groups Hexec) as (_ & Hresult & _).
    rewrite (Hresult _ eq_refl). reflexivity.
Defined.

(** With the empty password [authenticate] returns [None] on a registry
    that has no login query: no [ConfigurationError]. *)
Lemma authenticate_unregistered_empty_password :
  (∅ : Registry) !! login_qry_identif (new_Connector example_manager None) = None
  /\ authenticate percent_format (new_Connector example_manager None)
       (PStr (lit "alice")) (PStr []) (∅, example_world)
     = (Ok None, (∅, example_world))
  /\ forall msg : string,
       fst (authenticate percent_format (new_Connector example_manager None)
              (PStr (lit "alice")) (PStr []) (∅, example_world))
       <> Raise (ConfigurationError msg).
Proof.
  split; [ reflexivity | ]. split; [ reflexivity | ].
  intros msg. discriminate.
Qed.

(** No login query is registered for the realm [corp], and an empty
    registry has no groups query: both calls raise. *)
Lemma unregistered_query_raises_witness :
  fst (authenticate percent_format
         (new_Connector example_manager (Some (lit "corp")))
         (PStr (lit "alice")) (PStr (lit "secret"))
         (example_registry, example_world))
  = Raise (ConfigurationError "ldap_set_login_query was not called during setup")
  /\ fst (user_groups percent_format (new_Connector example_manager None)
            (PStr alice_dn) (∅, example_world))
     = Raise (ConfigurationError "set_ldap_groups_query was not called during setup").
Proof.
  split.
  - destruct (unregistered_query_raises percent_format example_manager
                (Some (lit "corp")) (PStr (lit "alice")) (PStr (lit "secret"))
                PNone example_registry example_world) as [Hlogin _].
    rewrite Hlogin; [ reflexivity | discriminate | reflexivity ].
  - destruct (unregistered_query_raises percent_format example_manager
                None PNone PNone (PStr alice_dn) ∅ example_world)
      as [_ Hgroups].
    rewrite Hgroups; reflexivity.
Defined.



(** The response to the search for alice is a reference followed by her
    entry: the result is her [(dn, attributes)] pair alone. *)
Lemma execute_maps_response_witness :
  fst (execute percent_format example_manager
         (login_kw (PStr (lit "alice")) (PStr (lit "secret")))
         (example_login_query, example_world))
  = Ok [(alice_dn, [(lit "cn", [lit "Alice"])])].
Proof.
  run (search_directory example_manager example_login_query
         (lit "ou=people", lit "(uid=alice)") example_world) Hsearch.
  assert (Hmiss : fst (query_cache (lit "ou=people", lit "(uid=alice)")
                         (example_login_query, example_world)) = Ok None)
    by (vm_compute; reflexivity).
  destruct (execute_maps_response percent_format example_manager
              (login_kw (PStr (lit "alice")) (PStr (lit "secret")))
              example_login_query example_world _
              (lit "ou=people") (lit "(uid=alice)") _
              eq_refl eq_refl
              (or_intror Hmiss) Hsearch)
    as (Hresult & _).
  rewrite Hresult. reflexivity.
Defined.

(** The groups query has period 0: its execution leaves it as it was and
    returns what the directory answered. *)
Lemma execute_without_cache_witness :
  fst (snd (execute percent_format example_manager (groups_kw (PStr alice_dn))
              (example_groups_query, example_world)))
  = example_groups_query
  /\ fst (execute percent_format example_manager (groups_kw (PStr alice_dn))
            (example_groups_query, example_world))
     = Ok [(lit "cn=staff,ou=groups", [(lit "cn", [lit "staff"])])].
Proof.
  destruct (execute_without_cache percent_format example_manager
              (groups_kw (PStr alice_dn)) example_groups_query example_world
              eq_refl) as (Heq & Hsame & _).
  split; [ exact Hsame | ].
  rewrite Heq. vm_compute. reflexivity.
Defined.

(** * Further properties *)

(** ** The sanitizer on text and on bytes *)

Lemma escape_for_search_str (s : str) :
  escape_for_search (PStr s) = PStr (join escape_char s).
Proof. destruct s; reflexivity. Qed.

Lemma escape_char_length (c : N) :
  length (escape_char c) = if in_table c then 3%nat else 1%nat.
Proof.
  rewrite escape_char_table. unfold in_table.
  repeat (case_key c; [ reflexivity | ]).
  repeat match goal with
         | H : c <> ?k |- _ => apply N.eqb_neq in H; rewrite H; clear H
         end.
  reflexivity.
Qed.

Lemma escape_char_plain (c : N) : in_table c = false -> escape_char c = [c].
Proof.
  rewrite escape_char_table. unfold in_table. intros H.
  repeat (apply orb_false_elim in H; destruct H as [H ?]).
  repeat match goal with
         | E : (c =? ?k) = false |- _ => rewrite E; clear E
         end.
  reflexivity.
Qed.

Lemma join_escape_char_length (s : str) :
  length (join escape_char s) = (length s + 2 * count_table s)%nat.
Proof.
  unfold join, count_table. induction s as [| c s IH]; [ reflexivity | ].
  cbn [List.map List.concat List.filter]. rewrite length_app, IH, escape_char_length.
  destruct (in_table c); cbn [length]; lia.
Qed.

(** X1. [escape_for_search] is injective on text: two strings with the
    same escaped form are the same string. *)
Theorem escape_for_search_injective (s1 s2 : str) :
  escape_for_search (PStr s1) = escape_for_search (PStr s2) -> s1 = s2.
Proof.
  rewrite !escape_for_search_str. intros H. injection H as H.
  apply (f_equal unescape) in H. rewrite !unescape_join_escape_char in H.
  congruence.
Qed.

(** The strings [a*] and [a\2A] differ, and so do their escaped forms. *)
Lemma escape_for_search_injective_witness :
  escape_for_search (PStr (lit "a*")) <> escape_for_search (PStr (lit "a\2A")).
Proof.
  intros H. apply escape_for_search_injective in H. discriminate H.
Defined.

(** X2. The escaped form of a text is the text itself exactly when the
    text has none of the five characters of the table. *)
Theorem escape_for_search_plain_text (s : str) :
  escape_for_search (PStr s) = PStr s <-> count_table s = 0%nat.
Proof.
  rewrite escape_for_search_str. split.
  - intros H. injection H as H. apply (f_equal (@length N)) in H.
    rewrite join_escape_char_length in H. lia.
  - unfold count_table, join. intros H. f_equal.
    induction s as [| c s IH]; [ reflexivity | ].
    cbn [List.filter] in H. cbn [List.map List.concat].
    destruct (in_table c) eqn:Hc; [ discriminate H | ].
    rewrite escape_char_plain by exact Hc. rewrite IH by exact H. reflexivity.
Qed.

(** X3. The escaped form of a text has two characters more than the text
    for each character of the table in it: between one and three times its
    length. *)
Theorem escape_for_search_length (s : str) :
  exists out : str,
    escape_for_search (PStr s) = PStr out
    /\ length out = (length s + 2 * count_table s)%nat
    /\ (length s <= length out <= 3 * length s)%nat.
Proof.
  exists (join escape_char s). split; [ apply escape_for_search_str | ].
  rewrite join_escape_char_length. split; [ reflexivity | ].
  assert (count_table s <= length s)%nat
    by (unfold count_table; apply List.filter_length_le).
  lia.
Qed.

Lemma utf8_decode_ascii (bs : list byte) :
  Forall (fun b => Byte.to_N b < 128) bs ->
  utf8_decode bs = Some (List.map Byte.to_N bs).
Proof.
  induction 1 as [| b bs Hb _ IH]; [ reflexivity | ].
  cbn [utf8_decode List.map]. apply N.ltb_lt in Hb. rewrite Hb, IH. reflexivity.
Qed.

(** X4. Bytes that are not empty and decode as UTF-8 are escaped as the
    text they decode to; bytes below 128 decode to themselves, so ASCII
    bytes are escaped as the same ASCII text. *)
Theorem escape_for_search_bytes_as_text (bs : list byte) :
  bs <> [] ->
  (forall u : str,
     utf8_decode bs = Some u ->
     escape_for_search (PBytes bs) = escape_for_search (PStr u))
  /\ (Forall (fun b => Byte.to_N b < 128) bs ->
      escape_for_search (PBytes bs)
      = escape_for_search (PStr (List.map Byte.to_N bs))).
Proof.
  intros Hne.
  assert (Hdec : forall u : str,
            utf8_decode bs = Some u ->
            escape_for_search (PBytes bs) = escape_for_search (PStr u)).
  { intros u Hu. rewrite escape_for_search_str.
    destruct bs as [| b bs]; [ congruence | ].
    unfold escape_for_search. cbn [truthy negb]. rewrite Hu. reflexivity. }
  split; [ exact Hdec | ].
  intros Hascii. apply Hdec, utf8_decode_ascii, Hascii.
Qed.

(** The bytes of [a*] are escaped as the text [a*]. *)
Lemma escape_for_search_bytes_as_text_witness :
  escape_for_search (PBytes [x61; x2a]) = PStr (lit "a\2A").
Proof.
  destruct (escape_for_search_bytes_as_text [x61; x2a] ltac:(discriminate))
    as [_ Hascii].
  rewrite Hascii; [ reflexivity | ].
  repeat constructor.
Defined.

Lemma unescape_percent_02x (b : byte) (rest : str) :
  unescape (percent_02x b ++ rest) = cons (Byte.to_N b) <$> unescape rest.
Proof. destruct b; reflexivity. Qed.

(** X5. The escapes made of bytes that are not UTF-8 are a well-formed
    filter value too: no [*], [(], [)], NUL or lone backslash is in it, and
    read back it gives the values of the bytes. *)
Theorem escape_for_search_undecodable_is_escaped (bs : list byte) :
  utf8_decode bs = None ->
  exists out : str,
    escape_for_search (PBytes bs) = PStr out
    /\ unescape out = Some (List.map Byte.to_N bs).
Proof.
  intros Hfail. exists (join percent_02x bs). split.
  - destruct bs as [| b bs]; [ discriminate Hfail | ].
    unfold escape_for_search. cbn [truthy negb]. rewrite Hfail. reflexivity.
  - clear Hfail. unfold join. induction bs as [| b bs IH]; [ reflexivity | ].
    cbn [List.map List.concat]. rewrite unescape_percent_02x, IH. reflexivity.
Qed.

(** The bytes [28 ff] are not UTF-8: they are escaped as [\28\ff]. *)
Lemma escape_for_search_undecodable_is_escaped_witness :
  exists out : str,
    escape_for_search (PBytes [x28; xff]) = PStr out
    /\ unescape out = Some [40; 255].
Proof.
  exact (escape_for_search_undecodable_is_escaped [x28; xff] eq_refl).
Defined.

(** ** The time bucket *)

Lemma inject_Z_pos (p : Z) : (0 < p)%Z -> (0 < inject_Z p)%Q.
Proof. intros H. unfold Qlt. cbn. lia. Qed.

Lemma bucket_of_multiple (period k : Z) :
  period <> 0%Z ->
  (bucket period (inject_Z period * inject_Z k) == inject_Z period * inject_Z k)%Q.
Proof.
  intros Hp.
  assert (Hne : ~ (inject_Z period == 0)%Q).
  { intros H. apply Hp. unfold Qeq in H. cbn in H. lia. }
  assert (Hdiv : (inject_Z period * inject_Z k / inject_Z period == inject_Z k)%Q)
    by (field; exact Hne).
  eapply Qeq_trans; [ apply bucket_floor | ].
  rewrite Hdiv, Qfloor_Z. reflexivity.
Qed.

Lemma bucket_compat (period : Z) (t t' : Q) :
  (t == t')%Q -> (bucket period t == bucket period t')%Q.
Proof.
  intros H. unfold bucket, py_mod.
  apply Qplus_comp; [ exact H | ]. apply Qopp_comp.
  apply Qplus_comp; [ exact H | ]. apply Qopp_comp.
  apply Qmult_comp; [ reflexivity | ].
  rewrite H. reflexivity.
Qed.

Lemma bucket_monotone (period : Z) (t1 t2 : Q) :
  (0 < period)%Z -> (t1 <= t2)%Q -> (bucket period t1 <= bucket period t2)%Q.
Proof.
  intros Hp Hle. pose proof (inject_Z_pos _ Hp) as HpQ.
  rewrite !bucket_floor. apply Qmult_le_l; [ exact HpQ | ].
  rewrite <- Zle_Qle. apply Qfloor_resp_le.
  unfold Qdiv. apply Qmult_le_compat_r; [ exact Hle | ].
  apply Qlt_le_weak, Qinv_lt_0_compat, HpQ.
Qed.

(** X6. For a whole period [P] from 1 to 2^53 and a time [t] from 0 up to
    2^53, the range in which the float arithmetic of the source is exact,
    [_timeslice(P, t)] is the start of the window of [P] seconds that holds
    [t]: a whole multiple of [P], not negative, at most [t] and more than
    [t - P]. *)
Theorem timeslice_window (period : Z) (t : Q) :
  (0 < period <= 2 ^ 53)%Z ->
  (0 <= t)%Q -> (t < inject_Z (2 ^ 53))%Q ->
  exists (b : Q) (k : Z),
    _timeslice period t = Ok b
    /\ (0 <= k)%Z
    /\ (b == inject_Z period * inject_Z k)%Q
    /\ (b <= t)%Q /\ (t < b + inject_Z period)%Q.
Proof.
  intros [Hp _] Ht _. exists (bucket period t), (Qfloor (t / inject_Z period)).
  split; [ apply timeslice_bucket; lia | ].
  split; [ | split; [ apply bucket_floor | apply bucket_bounds, Hp ] ].
  change 0%Z with (Qfloor 0). apply Qfloor_resp_le.
  unfold Qdiv. apply Qmult_le_0_compat; [ exact Ht | ].
  apply Qinv_le_0_compat, Qlt_le_weak, inject_Z_pos, Hp.
Qed.

(** With a period of 60 the time 12345.5 is in the window that starts at
    12300. *)
Lemma timeslice_window_witness :
  exists (b : Q) (k : Z),
    _timeslice 60 (123455 # 10) = Ok b
    /\ (0 <= k)%Z
    /\ (b == 60 * inject_Z k)%Q
    /\ (b <= 123455 # 10)%Q /\ (123455 # 10 < b + 60)%Q.
Proof.
  apply (timeslice_window 60 (123455 # 10)).
  - split; [ reflexivity | vm_compute; discriminate ].
  - vm_compute. discriminate.
  - vm_compute. reflexivity.
Defined.

(** X7. For a whole period from 1 to 2^53 and times from 0 up to 2^53, the
    range in which the float arithmetic of the source is exact, the bucket
    never goes back when the time goes on, and the bucket of a time that is
    itself a bucket is that time. *)
Theorem timeslice_monotone (period : Z) (t1 t2 : Q) (b1 b2 : Q) :
  (0 < period <= 2 ^ 53)%Z ->
  (0 <= t1)%Q -> (t1 < inject_Z (2 ^ 53))%Q ->
  (0 <= t2)%Q -> (t2 < inject_Z (2 ^ 53))%Q ->
  _timeslice period t1 = Ok b1 ->
  _timeslice period t2 = Ok b2 ->
  ((t1 <= t2)%Q -> (b1 <= b2)%Q)
  /\ (0 <= b1)%Q /\ (b1 < inject_Z (2 ^ 53))%Q
  /\ exists b : Q, _timeslice period b1 = Ok b /\ (b == b1)%Q.
Proof.
  intros [Hp _] Ht1 Hlt1 _ _ H1 H2.
  rewrite timeslice_bucket in H1, H2 by lia.
  injection H1 as <-. injection H2 as <-.
  pose proof (bucket_floor period t1) as Hk.
  split; [ apply bucket_monotone, Hp | ].
  split; [ | split ].
  - rewrite Hk. apply Qmult_le_0_compat.
    + apply Qlt_le_weak, inject_Z_pos, Hp.
    + change 0%Q with (inject_Z 0). rewrite <- Zle_Qle.
      change 0%Z with (Qfloor 0). apply Qfloor_resp_le.
      unfold Qdiv. apply Qmult_le_0_compat; [ exact Ht1 | ].
      apply Qinv_le_0_compat, Qlt_le_weak, inject_Z_pos, Hp.
  - eapply Qle_lt_trans; [ apply (bucket_bounds period t1 Hp) | exact Hlt1 ].
  - exists (bucket period (bucket period t1)).
    split; [ apply timeslice_bucket; lia | ].
    pose proof (bucket_of_multiple period (Qfloor (t1 / inject_Z period))
                  ltac:(lia)) as Hfix.
    eapply Qeq_trans; [ | exact (Qeq_sym _ _ Hk) ].
    eapply Qeq_trans; [ | exact Hfix ].
    apply bucket_compat, Hk.
Qed.

Lemma timeslice_monotone_witness :
  exists b1 b2 : Q,
    _timeslice 60 100 = Ok b1 /\ _timeslice 60 130 = Ok b2 /\ (b1 <= b2)%Q.
Proof.
  eexists. eexists. split; [ reflexivity | ]. split; [ reflexivity | ].
  assert (Hp : (0 < 60 <= 2 ^ 53)%Z)
    by (split; [ reflexivity | vm_compute; discriminate ]).
  assert (H1 : (0 <= 100)%Q) by (vm_compute; discriminate).
  assert (H1' : (100 < inject_Z (2 ^ 53))%Q) by (vm_compute; reflexivity).
  assert (H2 : (0 <= 130)%Q) by (vm_compute; discriminate).
  assert (H2' : (130 < inject_Z (2 ^ 53))%Q) by (vm_compute; reflexivity).
  destruct (timeslice_monotone 60 100 130 _ _ Hp H1 H1' H2 H2' eq_refl eq_refl)
    as [Hle _].
  apply Hle. vm_compute. discriminate.
Defined.

(** ** Invariants of the cache *)



Section CacheFrame.

Variable py_format : str -> list (str * pyval) -> Result str.


End CacheFrame.


(** ** The scoped connection of a search *)

(** X10. In the search of [execute], once the connection is created and
    entered, the calls that follow are fixed by the outcome of the search
    alone.  If the search returned a message id, the response of that very
    message is retrieved next and [__exit__] is the last call, whatever the
    retrieval does, an exception included; the result is then the outcome of
    that retrieval, unless [__exit__] raises.  If the search raised,
    [__exit__] follows at once and the exception goes on, unless [__exit__]
    raises.  [unbind] is not called. *)
Theorem search_directory_always_exits
    (manager : ConnectionManager) (q : LDAPQuery) (key : str * str)
    (w : World) :
  let lib := ldap3 manager in
  let conn := length (log w) in
  let w0 := record (EConnection (service_bind manager)) w in
  let w1 := record (EEnter conn) w0 in
  let search := ESearch conn (fst key) (snd key) (scope q) (attributes q) in
  let w2 := record search w1 in
  let searched :=
    on_search lib w1 conn (fst key) (snd key) (scope q) (attributes q) in
  let out := search_directory manager q key w in
  on_Connection lib w (service_bind manager) = Ok tt ->
  on_enter lib w0 conn = Ok tt ->
  (forall msg : Z,
      searched = Ok msg ->
      log (snd out)
      = log w ++ [EConnection (service_bind manager); EEnter conn; search;
                  EGetResponse conn msg; EExit conn]
      /\ (on_exit lib (record (EGetResponse conn msg) w2) conn = Ok tt ->
          fst out = on_get_response lib w2 conn msg))
  /\ (forall e : exn,
        searched = Raise e ->
        log (snd out)
        = log w ++ [EConnection (service_bind manager); EEnter conn; search;
                    EExit conn]
        /\ (on_exit lib w2 conn = Ok tt -> fst out = Raise e)).
Proof.
  intros lib conn w0 w1 search w2 searched out Hconn Henter.
  subst out searched.
  unfold search_directory, with_as, bind, connection, Connection, call.
  cbn [truthy]. fold (service_bind manager). fold lib. rewrite Hconn.
  fold w0. fold conn. rewrite Henter.
  unfold conn_search, conn_get_response, call. cbn [fst snd].
  fold w1. fold search. fold w2.
  split.
  - intros msg ->. split.
    + destruct (on_get_response _ _ _ _) as [response | e];
        destruct (on_exit _ _ _) as [[] | e'];
        subst w2 w1 w0; cbn [log record snd fst];
        rewrite <- !app_assoc; reflexivity.
    + intros Hexit.
      destruct (on_get_response lib w2 conn msg) as [response | e];
        rewrite Hexit; reflexivity.
  - intros e ->. split.
    + destruct (on_exit _ _ _) as [[] | e'];
        subst w2 w1 w0; cbn [log record snd fst];
        rewrite <- !app_assoc; reflexivity.
    + intros Hexit. rewrite Hexit. reflexivity.
Qed.

(** The groups of [uid=down] cannot be read: the search returns the message
    id 2, the retrieval of that message raises, and the connection is left
    all the same. *)
Lemma search_directory_always_exits_witness :
  let out := search_directory example_manager example_groups_query
               (lit "ou=groups", lit "(member=uid=down)") example_world in
  fst out = Raise LDAPException
  /\ log (snd out)
     = [EConnection (service_bind example_manager); EEnter 0;
        ESearch 0 (lit "ou=groups") (lit "(member=uid=down)")
          (scope example_groups_query) (attributes example_groups_query);
        EGetResponse 0 2; EExit 0].
Proof.
  intros out.
  destruct (search_directory_always_exits example_manager example_groups_query
              (lit "ou=groups", lit "(member=uid=down)") example_world
              eq_refl eq_refl) as [Hreturned _].
  destruct (Hreturned 2%Z eq_refl) as [Hlog Hresult].
  split; [ | exact Hlog ].
  subst out. rewrite (Hresult eq_refl). vm_compute. reflexivity.
Defined.

(** ** The facade: exceptions, the empty DN, the registry *)

Section FacadeMore.

Variable py_format : str -> list (str * pyval) -> Result str.

(** X11. [authenticate] catches nothing that the execution of the login
    query raises: with a password other than [''] and a registered query, an
    exception of the execution, an LDAP exception included, reaches the
    caller, and no bind is tried. *)
Theorem authenticate_propagates_search_error
    (self : Connector) (login password : pyval) (registry : Registry)
    (w : World) (search search' : LDAPQuery) (e : exn) (w' : World) :
  password <> PStr [] ->
  registry !! login_qry_identif self = Some search ->
  execute py_format (manager self) (login_kw login password) (search, w)
  = (Raise e, (search', w')) ->
  authenticate py_format self login password (registry, w)
  = (Raise e, (<[login_qry_identif self := search']> registry, w')).
Proof.
  intros Hpw Hreg Hexec.
  exact (authenticate_after_execute py_format _ _ _ _ _ _ _ _ _ Hpw Hreg Hexec).
Qed.

(** X12. When the one record the login query returns has the empty DN,
    [manager.connection] takes it for no user: the connection opened is the
    manager's own, with the manager's password and pool, the supplied
    password is not presented, and if that connection and its [unbind]
    succeed the record is returned as authenticated. *)
Theorem authenticate_empty_dn_uses_service_bind
    (self : Connector) (login password : pyval) (registry : Registry)
    (w : World) (search search' : LDAPQuery) (attrs : attrdict) (w' : World) :
  password <> PStr [] ->
  registry !! login_qry_identif self = Some search ->
  execute py_format (manager self) (login_kw login password) (search, w)
  = (Ok [([], attrs)], (search', w')) ->
  let lib := ldap3 (manager self) in
  let args := service_bind (manager self) in
  let conn := length (log w') in
  let w_conn := record (EConnection args) w' in
  on_Connection lib w' args = Ok tt ->
  on_unbind lib w_conn conn = Ok tt ->
  authenticate py_format self login password (registry, w)
  = (Ok (Some ([], attrs)),
     (<[login_qry_identif self := search']> registry,
      record (EUnbind conn) w_conn)).
Proof.
  intros Hpw Hreg Hexec lib args conn w_conn Hconn Hunbind.
  rewrite (authenticate_after_execute py_format _ _ _ _ _ _ _ _ _
             Hpw Hreg Hexec).
  cbn [negb orb length Nat.ltb Nat.leb fst].
  unfold try_except_LDAPException, bind, in_world, connection, Connection.
  cbn [truthy snd fst]. fold (service_bind (manager self)). fold args. fold lib.
  rewrite Hconn. unfold conn_unbind, call. fold w_conn. fold conn.
  rewrite Hunbind. reflexivity.
Qed.

(** X13. [authenticate] and [user_groups] leave every attribute of the
    registry other than their own query as it was, whatever the outcome. *)
Theorem facade_touches_only_its_query
    (self : Connector) (login password userdn : pyval) (registry : Registry)
    (w : World) (name : str) :
  (name <> login_qry_identif self ->
   fst (snd (authenticate py_format self login password (registry, w))) !! name
   = registry !! name)
  /\ (name <> group_qry_identif self ->
      fst (snd (user_groups py_format self userdn (registry, w))) !! name
      = registry !! name).
Proof.
  split; intros Hname.
  - unfold authenticate. destruct (py_eqb password (PStr [])); [ reflexivity | ].
    unfold bind at 1. unfold getattr. cbn [fst snd].
    destruct (registry !! login_qry_identif self) as [search |];
      [ | reflexivity ].
    unfold bind at 1. unfold on_attr. cbn [fst snd].
    destruct (execute py_format (manager self) _ (search, w))
      as [[result | e] [search' w']];
      [ | cbn [fst snd]; apply lookup_insert_ne; congruence ].
    destruct (negb _ || _);
      [ cbn [ret fst snd]; apply lookup_insert_ne; congruence | ].
    destruct result as [| result0 rest];
      [ cbn [raise fst snd]; apply lookup_insert_ne; congruence | ].
    unfold try_except_LDAPException, bind, in_world. cbn [fst snd].
    destruct (connection (manager self) (PStr (fst result0)) password w')
      as [[conn | e] w''].
    + destruct (conn_unbind (ldap3 (manager self)) conn w'') as [[[] | e] w'''];
        [ | destruct e ]; cbn [ret fst snd]; apply lookup_insert_ne; congruence.
    + destruct e; cbn [ret fst snd]; apply lookup_insert_ne; congruence.
  - unfold user_groups. unfold bind at 1. unfold getattr. cbn [fst snd].
    destruct (registry !! group_qry_identif self) as [search |];
      [ | reflexivity ].
    unfold try_except_LDAPException, bind, on_attr. cbn [fst snd].
    destruct (execute py_format (manager self) _ (search, w))
      as [[result | e] [search' w']];
      [ | destruct e ]; cbn [ret fst snd]; apply lookup_insert_ne; congruence.
Qed.

(** X14. [user_groups] turns only an LDAP exception into [None]: any other
    exception of the execution of the groups query, such as the one of a
    template that names a key other than [userdn], reaches the caller. *)
Theorem user_groups_propagates_other_errors
    (self : Connector) (userdn : pyval) (registry : Registry) (w : World)
    (search search' : LDAPQuery) (e : exn) (w' : World) :
  registry !! group_qry_identif self = Some search ->
  execute py_format (manager self) (groups_kw userdn) (search, w)
  = (Raise e, (search', w')) ->
  e <> LDAPException ->
  user_groups py_format self userdn (registry, w)
  = (Raise e, (<[group_qry_identif self := search']> registry, w')).
Proof.
  intros Hreg Hexec He.
  rewrite (user_groups_after_execute py_format _ _ _ _ _ _ _ _ Hreg Hexec).
  destruct e; congruence.
Qed.

End FacadeMore.

(** The directory cannot be reached: the search raises an LDAP exception,
    and so does [authenticate]. *)
Lemma authenticate_propagates_search_error_witness :
  fst (authenticate percent_format (new_Connector down_manager None)
         (PStr (lit "alice")) (PStr (lit "secret"))
         (example_registry, example_world))
  = Raise LDAPException.
Proof.
  run (execute percent_format down_manager
         (login_kw (PStr (lit "alice")) (PStr (lit "secret")))
         (example_login_query, example_world)) Hexec.
  rewrite (authenticate_propagates_search_error percent_format
             (new_Connector down_manager None)
             (PStr (lit "alice")) (PStr (lit "secret"))
             example_registry example_world example_login_query _ _ _
             ltac:(discriminate) example_registry_login Hexec).
  reflexivity.
Defined.

(** The search returns the entry of the empty DN: a wrong password is
    accepted, the connection being the manager's own. *)
Lemma authenticate_empty_dn_uses_service_bind_witness :
  fst (authenticate percent_format (new_Connector rootdse_manager None)
         (PStr (lit "anyone")) (PStr (lit "wrong"))
         (example_registry, example_world))
  = Ok (Some ([], [])).
Proof.
  run (execute percent_format rootdse_manager
         (login_kw (PStr (lit "anyone")) (PStr (lit "wrong")))
         (example_login_query, example_world)) Hexec.
  rewrite (authenticate_empty_dn_uses_service_bind percent_format
             (new_Connector rootdse_manager None)
             (PStr (lit "anyone")) (PStr (lit "wrong"))
             example_registry example_world example_login_query _ _ _
             ltac:(discriminate) example_registry_login Hexec
             eq_refl eq_refl).
  reflexivity.
Defined.

(** The groups query of the example registry is as it was after
    [authenticate]. *)
Lemma facade_touches_only_its_query_witness :
  fst (snd (authenticate percent_format example_connector
              (PStr (lit "alice")) (PStr (lit "secret"))
              (example_registry, example_world)))
  !! lit "ldap_groups_query"
  = Some example_groups_query.
Proof.
  destruct (facade_touches_only_its_query percent_format example_connector
              (PStr (lit "alice")) (PStr (lit "secret")) PNone
              example_registry example_world (lit "ldap_groups_query"))
    as [Hlogin _].
  rewrite Hlogin by (vm_compute; discriminate).
  exact example_registry_groups.
Defined.

(** A groups query whose filter names the key [login] raises [KeyError],
    and so does [user_groups]. *)
Lemma user_groups_propagates_other_errors_witness :
  let bad := new_LDAPQuery (lit "ou=groups") (lit "(member=%(login)s)")
               SUBTREE None 0 in
  fst (user_groups percent_format example_connector (PStr alice_dn)
         ({[ lit "ldap_groups_query" := bad ]}, example_world))
  = Raise KeyError.
Proof.
  intros bad.
  run (execute percent_format (manager example_connector)
         (groups_kw (PStr alice_dn)) (bad, example_world)) Hexec.
  assert (Hreg : ({[ lit "ldap_groups_query" := bad ]} : Registry)
                 !! group_qry_identif example_connector = Some bad)
    by (vm_compute; reflexivity).
  rewrite (user_groups_propagates_other_errors percent_format
             example_connector (PStr alice_dn)
             {[ lit "ldap_groups_query" := bad ]} example_world bad _ _ _
             Hreg Hexec ltac:(discriminate)).
  reflexivity.
Defined.

(** ** Identifiers *)

Lemma realm_key_registry_identifier (base : str) (r1 r2 : option str) :
  realm_key r1 = realm_key r2 ->
  _registry_identifier base r1 = _registry_identifier base r2.
Proof.
  destruct r1 as [[| c1 r1] |], r2 as [[| c2 r2] |]; cbn;
    intros H; try reflexivity; try discriminate H.
  injection H as -> ->. reflexivity.
Qed.

Lemma _pool_identifier_registry (base : str) (r : option str) :
  _pool_identifier base r = _registry_identifier base r.
Proof. reflexivity. Qed.

Lemma _activity_identifier_inj (base : str) (r1 r2 : option str) :
  _activity_identifier base r1 = _activity_identifier base r2 ->
  realm_key r1 = realm_key r2.
Proof.
  assert (Hlonger : forall (c : N) (r : str), base ++ lit "-" ++ c :: r <> base).
  { intros c r H. apply (f_equal (@length N)) in H.
    rewrite length_app in H. cbn in H. lia. }
  destruct r1 as [[| c1 r1] |], r2 as [[| c2 r2] |]; cbn;
    intros H; try reflexivity;
    try (exfalso; exact (Hlonger _ _ H));
    try (exfalso; symmetry in H; exact (Hlonger _ _ H)).
  apply app_inv_head in H. injection H as -> ->. reflexivity.
Qed.

(** X15. The names under which the login query, the groups query and the
    connector are stored never coincide, whatever the realms; two realms get
    the same name for the same resource, and the same connection pool,
    exactly when they are the same realm, the empty realm counting as the
    unset one. *)
Theorem registry_identifiers_separate (r1 r2 : option str) :
  let login := _registry_identifier (lit "ldap_login_query") in
  let groups := _registry_identifier (lit "ldap_groups_query") in
  let connector := _registry_identifier (lit "ldap_connector") in
  let pool := _pool_identifier (lit "pyramid_ldap3") in
  login r1 <> groups r2 /\ login r1 <> connector r2 /\ groups r1 <> connector r2
  /\ (login r1 = login r2 <-> realm_key r1 = realm_key r2)
  /\ (groups r1 = groups r2 <-> realm_key r1 = realm_key r2)
  /\ (connector r1 = connector r2 <-> realm_key r1 = realm_key r2)
  /\ (pool r1 = pool r2 <-> realm_key r1 = realm_key r2).
Proof.
  intros login groups connector pool.
  split; [ | split; [ | split ] ];
    try (destruct r1 as [[| c1 r1] |], r2 as [[| c2 r2] |]; cbn; discriminate).
  repeat split;
    try (apply _registry_identifier_inj);
    try (apply realm_key_registry_identifier).
Qed.

(** X16. The action identifiers of [ldap_setup], [ldap_set_login_query]
    and [ldap_set_groups_query] never coincide, whatever the realms, and
    two realms get the same identifier for the same directive exactly when
    they are the same realm: no two of these directives are taken for
    conflicting registrations unless they are the same directive for the
    same realm. *)
Theorem activity_identifiers_separate (r1 r2 : option str) :
  let setup := _activity_identifier (lit "ldap-setup") in
  let login := _activity_identifier (lit "pyramid_ldap3") in
  let groups := _activity_identifier (lit "ldap-set-groups-query") in
  setup r1 <> login r2 /\ setup r1 <> groups r2 /\ login r1 <> groups r2
  /\ (setup r1 = setup r2 -> realm_key r1 = realm_key r2)
  /\ (login r1 = login r2 -> realm_key r1 = realm_key r2)
  /\ (groups r1 = groups r2 -> realm_key r1 = realm_key r2).
Proof.
  intros setup login groups.
  split; [ | split; [ | split ] ];
    try (destruct r1 as [[| c1 r1] |], r2 as [[| c2 r2] |]; cbn; discriminate).
  repeat split; apply _activity_identifier_inj.
Qed.

(** ** Parsing the server URIs *)

Lemma starts_with_app (sep rest : str) : starts_with sep (sep ++ rest) = true.
Proof.
  induction sep as [| a sep IH]; [ reflexivity | ].
  cbn. rewrite N.eqb_refl, IH. reflexivity.
Qed.

Lemma starts_with_sound (sep s : str) :
  starts_with sep s = true -> s = sep ++ drop (length sep) s.
Proof.
  revert s. induction sep as [| a sep IH]; intros s H; [ reflexivity | ].
  destruct s as [| b s]; [ discriminate H | ].
  cbn in H. apply andb_prop in H. destruct H as [Hab Hrest].
  apply N.eqb_eq in Hab. subst b. cbn. f_equal. apply IH, Hrest.
Qed.

Lemma split_once_sound (sep s before after : str) :
  split_once sep s = Some (before, after) -> s = before ++ sep ++ after.
Proof.
  revert before. induction s as [| c s IH]; intros before H.
  - cbn in H. destruct (starts_with sep []) eqn:Hs; [ | discriminate H ].
    injection H as <- <-. apply starts_with_sound in Hs. exact Hs.
  - cbn [split_once] in H. destruct (starts_with sep (c :: s)) eqn:Hs.
    + injection H as <- <-. apply starts_with_sound in Hs. exact Hs.
    + destruct (split_once sep s) as [[b a] |]; [ | discriminate H ].
      injection H as <- <-. cbn. f_equal. apply IH. reflexivity.
Qed.

Lemma split_once_found (c : N) (sep' before after : str) :
  ~ In c before ->
  split_once (c :: sep') (before ++ c :: sep' ++ after) = Some (before, after).
Proof.
  induction before as [| x before IH]; intros Hc.
  - cbn [app split_once starts_with].
    rewrite N.eqb_refl, starts_with_app. cbn [andb length drop].
    rewrite drop_app_length. reflexivity.
  - assert (Hx : (c =? x) = false)
      by (apply N.eqb_neq; intros ->; apply Hc; left; reflexivity).
    cbn [app split_once starts_with]. rewrite Hx. cbn [andb].
    rewrite IH by (intros H; apply Hc; right; exact H). reflexivity.
Qed.

Lemma split_once_none (c : N) (sep' s : str) :
  ~ In c s -> split_once (c :: sep') s = None.
Proof.
  induction s as [| x s IH]; intros Hc; [ reflexivity | ].
  assert (Hx : (c =? x) = false)
    by (apply N.eqb_neq; intros ->; apply Hc; left; reflexivity).
  cbn [split_once starts_with]. rewrite Hx. cbn [andb].
  rewrite IH by (intros H; apply Hc; right; exact H). reflexivity.
Qed.

(** The part before the first occurrence of a one-character separator does
    not hold it. *)
Lemma split_once_char_before (c : N) (s before after : str) :
  split_once [c] s = Some (before, after) -> ~ In c before.
Proof.
  revert before. induction s as [| x s IH]; intros before H.
  - discriminate H.
  - cbn [split_once starts_with] in H.
    destruct (N.eqb_spec c x) as [-> | Hx]; cbn [andb] in H.
    + injection H as <- <-. intros [].
    + destruct (split_once [c] s) as [[b a] |] eqn:E; [ | discriminate H ].
      injection H as <- <-. intros [Hin | Hin]; [ congruence | ].
      exact (IH b eq_refl Hin).
Qed.

Lemma split_once_char_none (c : N) (s : str) :
  split_once [c] s = None -> ~ In c s.
Proof.
  induction s as [| x s IH]; intros H; [ intros [] | ].
  cbn [split_once starts_with] in H.
  destruct (N.eqb_spec c x) as [-> | Hx]; cbn [andb] in H;
    [ discriminate H | ].
  destruct (split_once [c] s) as [[b a] |] eqn:E; [ discriminate H | ].
  intros [Hin | Hin]; [ congruence | exact (IH eq_refl Hin) ].
Qed.

Section ServerArgs.

Variable Tls : Type.
Variable py_int : str -> option Z.

Lemma server_args_use_ssl (tls : Tls) (get_info uri : str) :
  sa_use_ssl (server_args Tls py_int tls get_info uri)
  = starts_with (lit "ldaps://") uri.
Proof.
  assert (Hssl : sa_use_ssl (server_args Tls py_int tls get_info uri)
                 = match split_once (lit "://") uri with
                   | Some (schema, _) => bool_decide (schema = lit "ldaps")
                   | None => false
                   end).
  { unfold server_args.
    destruct (split_once (lit "://") uri) as [[schema host] |].
    - destruct (split_once (lit ":") host) as [[h p] |];
        [ destruct (py_int p) | ]; reflexivity.
    - destruct (split_once (lit ":") uri) as [[h p] |];
        [ destruct (py_int p) | ]; reflexivity. }
  rewrite Hssl. destruct (starts_with (lit "ldaps://") uri) eqn:Hs.
  - apply starts_with_sound in Hs. rewrite Hs.
    change (lit "ldaps://" ++ ?t) with (lit "ldaps" ++ 58 :: lit "//" ++ t).
    change (lit "://") with (58 :: lit "//").
    rewrite split_once_found.
    + reflexivity.
    + cbn. intros H. repeat (destruct H as [H | H]; [ discriminate H | ]).
      exact H.
  - destruct (split_once (lit "://") uri) as [[schema host] |] eqn:E;
      [ | reflexivity ].
    apply split_once_sound in E. case_bool_decide as Hschema; [ | reflexivity ].
    subst schema. rewrite E in Hs.
    change (lit "ldaps" ++ lit "://" ++ host) with (lit "ldaps://" ++ host) in Hs.
    rewrite starts_with_app in Hs. discriminate Hs.
Qed.

(** X17. For every URI, the host handed to [ldap3.Server] holds no colon,
    since it is cut at the first one; TLS is used exactly when the URI
    starts with [ldaps://], in lower case.  The host part is what follows
    the first [://], or the whole URI when there is none.  When the host
    part has a colon, the host is the text before the first one, and the
    port is what [int] makes of the text after that colon, or, when [int]
    refuses it, 636 under TLS and 389 otherwise; when the host part has no
    colon, it is the host and the port is that default. *)
Theorem server_args_host_and_scheme (tls : Tls) (get_info uri : str) :
  let a := server_args Tls py_int tls get_info uri in
  let host_part := match split_once (lit "://") uri with
                   | Some (_, rest) => rest
                   | None => uri
                   end in
  ~ In 58 (sa_host a)
  /\ sa_use_ssl a = starts_with (lit "ldaps://") uri
  /\ (forall scheme rest : str,
        uri = scheme ++ lit "://" ++ rest -> ~ In 58 scheme ->
        host_part = rest)
  /\ (forall h p : str,
        host_part = h ++ 58 :: p -> ~ In 58 h ->
        sa_host a = h
        /\ sa_port a = match py_int p with
                       | Some n => n
                       | None => default_port (sa_use_ssl a)
                       end)
  /\ (~ In 58 host_part ->
      sa_host a = host_part /\ sa_port a = default_port (sa_use_ssl a))
  /\ sa_tls a = tls /\ sa_get_info a = get_info.
Proof.
  intros a host_part.
  split; [ | split; [ apply server_args_use_ssl | ] ].
  - subst a. unfold server_args.
    destruct (split_once (lit "://") uri) as [[schema host] |];
      [ destruct (split_once (lit ":") host) as [[h p] |] eqn:E
      | destruct (split_once (lit ":") uri) as [[h p] |] eqn:E ];
      try (destruct (py_int p)); cbn [sa_host];
      first [ exact (split_once_char_before _ _ _ _ E)
            | exact (split_once_char_none _ _ E) ].
  - assert (Hargs : a = let use_ssl := sa_use_ssl a in
                        match split_once [58] host_part with
                        | Some (h, p) =>
                          mkServerArgs h
                            (match py_int p with
                             | Some n => n
                             | None => default_port use_ssl
                             end) use_ssl tls get_info
                        | None =>
                          mkServerArgs host_part (default_port use_ssl)
                            use_ssl tls get_info
                        end).
    { subst a host_part. unfold server_args. change (lit ":") with [58].
      destruct (split_once (lit "://") uri) as [[schema host] |];
        [ destruct (split_once [58] host) as [[h p] |]
        | destruct (split_once [58] uri) as [[h p] |] ];
        try (destruct (py_int p)); reflexivity. }
    cbv zeta in Hargs.
    split; [ | split; [ | split ] ].
    + intros scheme rest -> Hscheme. subst host_part.
      change (lit "://") with (58 :: lit "//").
      change (scheme ++ (58 :: lit "//") ++ rest)
        with (scheme ++ 58 :: lit "//" ++ rest).
      rewrite split_once_found by exact Hscheme. reflexivity.
    + intros h p Hpart Hh. rewrite Hargs, Hpart.
      change (h ++ 58 :: p) with (h ++ 58 :: [] ++ p).
      rewrite split_once_found by exact Hh.
      split; reflexivity.
    + intros Hnone. rewrite Hargs.
      rewrite split_once_none by exact Hnone. split; reflexivity.
    + rewrite Hargs.
      destruct (split_once [58] host_part) as [[h p] |]; split; reflexivity.
Qed.

(** X18. A URI made of a scheme and a host, neither holding a colon, with
    or without a port, is read back as it was put together: the host is the
    host, TLS is on exactly for the scheme [ldaps], and the port is the one
    [int] reads, or else the default of the scheme; without a scheme the
    whole text is the host, on port 389 without TLS. *)
Theorem server_args_of_parts (tls : Tls) (get_info scheme h p : str) :
  ~ In 58 scheme -> ~ In 58 h ->
  let ssl := bool_decide (scheme = lit "ldaps") in
  server_args Tls py_int tls get_info (scheme ++ lit "://" ++ h)
  = mkServerArgs h (default_port ssl) ssl tls get_info
  /\ server_args Tls py_int tls get_info (scheme ++ lit "://" ++ h ++ lit ":" ++ p)
     = mkServerArgs h
         (match py_int p with Some n => n | None => default_port ssl end)
         ssl tls get_info
  /\ server_args Tls py_int tls get_info h
     = mkServerArgs h 389 false tls get_info.
Proof.
  intros Hscheme Hh ssl. unfold server_args.
  change (lit "://") with (58 :: lit "//").
  change (lit ":") with [58].
  repeat split.
  - change (scheme ++ (58 :: lit "//") ++ h)
      with (scheme ++ 58 :: lit "//" ++ h).
    rewrite split_once_found by exact Hscheme.
    rewrite split_once_none by exact Hh. reflexivity.
  - change (scheme ++ (58 :: lit "//") ++ h ++ [58] ++ p)
      with (scheme ++ 58 :: lit "//" ++ (h ++ 58 :: [] ++ p)).
    rewrite split_once_found by exact Hscheme.
    rewrite split_once_found by exact Hh.
    destruct (py_int p); reflexivity.
  - rewrite split_once_none by exact Hh.
    rewrite split_once_none by exact Hh. reflexivity.
Qed.

End ServerArgs.

(** The URI [ldaps://h.example:1636x]: the host part has a colon, [int]
    refuses [1636x], and the port is the 636 of TLS. *)
Lemma server_args_host_and_scheme_witness :
  let a := server_args bool digits_int false ldap3_NONE
             (lit "ldaps://h.example:1636x") in
  sa_host a = lit "h.example" /\ sa_port a = 636%Z /\ sa_use_ssl a = true.
Proof.
  intros a.
  destruct (server_args_host_and_scheme bool digits_int false ldap3_NONE
              (lit "ldaps://h.example:1636x"))
    as (_ & Hssl & _ & Hcolon & _).
  assert (Hh : ~ In 58 (lit "h.example")).
  { intros Hin. vm_compute in Hin. intuition discriminate. }
  destruct (Hcolon (lit "h.example") (lit "1636x") eq_refl Hh)
    as [Hhost Hport].
  split; [ exact Hhost | ]. split; [ | exact Hssl ].
  subst a. rewrite Hport, Hssl. reflexivity.
Defined.

(** The URI [ldaps://h.example:1636], and one whose port is not a
    number. *)
Lemma server_args_of_parts_witness :
  server_args bool digits_int false ldap3_NONE (lit "ldaps://h.example:1636")
  = mkServerArgs (lit "h.example") 1636 true false ldap3_NONE
  /\ server_args bool digits_int false ldap3_NONE (lit "ldap://h.example:x")
     = mkServerArgs (lit "h.example") 389 false false ldap3_NONE.
Proof.
  assert (Hno : forall s : str, forallb (fun c => negb (c =? 58)) s = true ->
                                ~ In 58 s).
  { intros s Hs Hin. rewrite forallb_forall in Hs. specialize (Hs _ Hin).
    discriminate Hs. }
  split.
  - destruct (server_args_of_parts bool digits_int false ldap3_NONE
                (lit "ldaps") (lit "h.example") (lit "1636")
                (Hno (lit "ldaps") eq_refl) (Hno (lit "h.example") eq_refl))
      as (_ & Hport & _).
    exact Hport.
  - destruct (server_args_of_parts bool digits_int false ldap3_NONE
                (lit "ldap") (lit "h.example") (lit "x")
                (Hno (lit "ldap") eq_refl) (Hno (lit "h.example") eq_refl))
      as (_ & Hport & _).
    exact Hport.
Defined.

(** ** The manager and its servers *)

Section ManagerInit.

Variable Tls : Type.
Variable py_int : str -> option Z.
Variable isspace : N -> bool.
Variable ldap3_Server : ServerArgs Tls -> Result Server.

Lemma split_from_tokens (cur s : str) :
  Forall (fun c => isspace c = false) cur ->
  Forall (fun t : str => t <> [] /\ Forall (fun c => isspace c = false) t)
         (split_from isspace cur s).
Proof.
  revert cur. induction s as [| c s IH]; intros cur Hcur.
  - cbn. destruct cur as [| x cur]; [ constructor | ].
    constructor; [ split; [ discriminate | exact Hcur ] | constructor ].
  - cbn [split_from]. destruct (isspace c) eqn:Hc.
    + destruct cur as [| x cur]; [ apply IH; constructor | ].
      constructor; [ split; [ discriminate | exact Hcur ] | ].
      apply IH. constructor.
    + apply IH. apply Forall_app. split; [ exact Hcur | ].
      constructor; [ exact Hc | constructor ].
Qed.

Lemma split_from_no_space (cur s : str) :
  Forall (fun c => isspace c = false) s ->
  split_from isspace cur s = match cur ++ s with [] => [] | t => [t] end.
Proof.
  revert cur. induction s as [| c s IH]; intros cur Hs.
  - cbn. rewrite app_nil_r. destruct cur; reflexivity.
  - inversion Hs as [| ? ? Hc Hs']; subst. cbn [split_from]. rewrite Hc.
    rewrite IH by exact Hs'. rewrite <- app_assoc. reflexivity.
Qed.

(** X19. The URIs that [uri.split()] cuts out of a string are never empty
    and hold no whitespace; a string that is not empty and holds no
    whitespace is its own single URI, and the empty string gives no URI at
    all. *)
Theorem py_split_tokens (s : str) :
  Forall (fun t : str => t <> [] /\ Forall (fun c => isspace c = false) t)
         (py_split isspace s)
  /\ (s <> [] -> Forall (fun c => isspace c = false) s ->
      py_split isspace s = [s])
  /\ py_split isspace [] = [].
Proof.
  split; [ apply split_from_tokens; constructor | ].
  split; [ | reflexivity ].
  intros Hne Hs. unfold py_split. rewrite split_from_no_space by exact Hs.
  cbn [app]. destruct s; [ congruence | reflexivity ].
Qed.

Lemma make_servers_Forall2 (tls : Tls) (get_info : str) (uris : list str)
    (servers : list Server) :
  make_servers Tls py_int ldap3_Server tls get_info uris = Ok servers ->
  Forall2 (fun uri srv =>
             ldap3_Server (server_args Tls py_int tls get_info uri) = Ok srv)
          uris servers.
Proof.
  revert servers. induction uris as [| uri uris IH]; intros servers H.
  - injection H as <-. constructor.
  - cbn [make_servers] in H.
    destruct (ldap3_Server _) as [srv | e] eqn:Hsrv; [ | discriminate H ].
    destruct (make_servers _ _ _ _ _ uris) as [rest | e]; [ | discriminate H ].
    injection H as <-. constructor; [ exact Hsrv | apply IH; reflexivity ].
Qed.

(** X20. When [ConnectionManager(...)] returns, its servers are the ones
    [ldap3.Server] returned for the URIs, one per URI and in their order; it
    keeps the library, the bind name and the password it was given; with
    [use_pool] its strategy is [REUSABLE], its pool is named after the realm
    and has the given size and lifetime; without [use_pool] the strategy is
    [ASYNC] and pool name, size and lifetime are [None], whatever size and
    lifetime were given. *)
Theorem ConnectionManager_init_fields (lib : Ldap3) (uri : uri_arg)
    (bind0 passwd0 : pyval) (tls : Tls) (use_pool : bool)
    (size lifetime : option Z) (get_info : option str)
    (realm : option str) (u : str + list str) (m : ConnectionManager) :
  ConnectionManager__init__ Tls py_int isspace ldap3_Server lib uri bind0
    passwd0 tls use_pool size lifetime get_info realm = Ok (u, m) ->
  Forall2 (fun uri srv =>
             ldap3_Server
               (server_args Tls py_int tls
                  (match get_info with None => ldap3_NONE | Some g => g end)
                  uri) = Ok srv)
          (uris_of isspace uri) (server m)
  /\ length (server m) = length (uris_of isspace uri)
  /\ ldap3 m = lib /\ bind_dn m = bind0 /\ passwd m = passwd0
  /\ (use_pool = true ->
      strategy m = REUSABLE
      /\ pool_name m = Some (_pool_identifier (lit "pyramid_ldap3") realm)
      /\ pool_size m = size /\ pool_lifetime m = lifetime)
  /\ (use_pool = false ->
      strategy m = ASYNC
      /\ pool_name m = None /\ pool_size m = None /\ pool_lifetime m = None).
Proof.
  unfold ConnectionManager__init__. intros H.
  destruct (make_servers _ _ _ _ _ _) as [servers | e] eqn:Hservers;
    [ | discriminate H ].
  apply make_servers_Forall2 in Hservers.
  injection H as <- <-.
  destruct use_pool; cbn; repeat split;
    try exact Hservers; try discriminate;
    symmetry; exact (Forall2_length _ _ _ Hservers).
Qed.

(** X21. The attribute [self.uri]: for a list of one URI it is that URI,
    but for a string holding one URI it is the first character of the
    string, not the URI; for any other number of URIs it is the list of
    them. *)
Theorem uri_attribute_cases (s t : str) (l : list str) :
  uri_attribute isspace (UriList [t]) = inl t
  /\ (py_split isspace s = [t] ->
      exists c : N, s = c :: drop 1 s /\ uri_attribute isspace (UriStr s) = inl [c])
  /\ (length (py_split isspace s) <> 1%nat ->
      uri_attribute isspace (UriStr s) = inr (py_split isspace s))
  /\ (length l <> 1%nat -> uri_attribute isspace (UriList l) = inr l).
Proof.
  split; [ reflexivity | ]. split; [ | split ].
  - intros Hs. destruct s as [| c s]; [ discriminate Hs | ].
    exists c. split; [ reflexivity | ].
    unfold uri_attribute. cbn [uris_of]. rewrite Hs. reflexivity.
  - intros Hlen. unfold uri_attribute. cbn [uris_of].
    destruct (Nat.eqb_spec (length (py_split isspace s)) 1);
      [ contradiction | reflexivity ].
  - intros Hlen. unfold uri_attribute. cbn [uris_of].
    destruct (Nat.eqb_spec (length l) 1); [ contradiction | reflexivity ].
Qed.

(** ** Setup and the request *)

(** X22. After [ldap_setup] for a realm, [get_ldap_connector] for that
    realm returns the connector of the manager that was built, bound to the
    realm; for every other realm it returns what it returned before. *)
Theorem ldap_setup_then_get (lib : Ldap3) (uri : uri_arg)
    (bind0 passwd0 : pyval) (use_tls : Tls) (use_pool : bool)
    (size lifetime : option Z) (get_info : option str)
    (realm : option str) (request request' : Request) (ldap3_missing : bool) :
  ldap_setup Tls py_int isspace ldap3_Server lib uri bind0 passwd0 use_tls
    use_pool size lifetime get_info realm request = Ok request' ->
  (exists (u : str + list str) (m : ConnectionManager),
      ConnectionManager__init__ Tls py_int isspace ldap3_Server lib uri bind0
        passwd0 use_tls use_pool
        (if use_pool then size else None)
        (if use_pool then lifetime else None) get_info realm = Ok (u, m)
      /\ get_ldap_connector ldap3_missing request' realm
         = Ok (new_Connector m realm))
  /\ (forall realm' : option str,
        realm_key realm' <> realm_key realm ->
        get_ldap_connector ldap3_missing request' realm'
        = get_ldap_connector ldap3_missing request realm').
Proof.
  unfold ldap_setup. intros H.
  destruct (ConnectionManager__init__ _ _ _ _ _ _ _ _ _ _ _ _ _ _)
    as [[u m] | e] eqn:Hinit; [ | discriminate H ].
  injection H as <-. split.
  - exists u, m. split; [ reflexivity | ].
    unfold get_ldap_connector, get_ldap_connector_name.
    rewrite lookup_insert_eq. reflexivity.
  - intros realm' Hrealm. unfold get_ldap_connector, get_ldap_connector_name.
    rewrite lookup_insert_ne; [ reflexivity | ].
    intros Heq. apply Hrealm. symmetry.
    exact (_registry_identifier_inj _ _ _ Heq).
Qed.

(** X23. The connector that [ldap_setup] attaches for a realm looks for
    its queries under the names [ldap_set_login_query] and
    [ldap_set_groups_query] store them under for the same realm: once the
    three directives have run for a realm, the login query and the groups
    query are found. *)
Theorem setup_and_queries_agree (lib : Ldap3) (uri : uri_arg)
    (bind0 passwd0 : pyval) (use_tls : Tls) (use_pool : bool)
    (size lifetime : option Z) (get_info : option str)
    (realm : option str) (request request' : Request) (registry : Registry)
    (lb lf gb gf : str) (lsc gsc : search_scope) (la ga : option (list str))
    (lp gp : Z) (connector : Connector) :
  ldap_setup Tls py_int isspace ldap3_Server lib uri bind0 passwd0 use_tls
    use_pool size lifetime get_info realm request = Ok request' ->
  get_ldap_connector false request' realm = Ok connector ->
  let registry' :=
    ldap_set_groups_query gb gf gsc ga gp realm
      (ldap_set_login_query lb lf lsc la lp realm registry) in
  registry' !! login_qry_identif connector
  = Some (new_LDAPQuery lb lf lsc la lp)
  /\ registry' !! group_qry_identif connector
     = Some (new_LDAPQuery gb gf gsc ga gp).
Proof.
  unfold ldap_setup. intros H.
  destruct (ConnectionManager__init__ _ _ _ _ _ _ _ _ _ _ _ _ _ _)
    as [[u m] | e] eqn:Hinit; [ | discriminate H ].
  injection H as <-.
  unfold get_ldap_connector, get_ldap_connector_name.
  rewrite lookup_insert_eq. intros Hc. injection Hc as <-.
  cbv zeta.
  unfold ldap_set_groups_query, ldap_set_login_query. cbn [new_Connector
    login_qry_identif group_qry_identif]. split.
  - rewrite lookup_insert_ne
      by (intros Heq; symmetry in Heq;
          exact (login_groups_identifiers_differ _ _ Heq)).
    apply lookup_insert_eq.
  - apply lookup_insert_eq.
Qed.

End ManagerInit.

(** One URI that is not empty and holds no whitespace. *)
Lemma py_split_tokens_witness :
  py_split ascii_isspace (lit "ldap://localhost") = [lit "ldap://localhost"].
Proof.
  destruct (py_split_tokens ascii_isspace (lit "ldap://localhost"))
    as (_ & Hone & _).
  apply Hone; [ discriminate | ].
  apply List.Forall_forall. intros c Hc.
  cbn in Hc. repeat (destruct Hc as [<- | Hc]; [ reflexivity | ]).
  destruct Hc.
Defined.

(** A manager for two servers without a pool: size and lifetime are
    dropped. *)
Lemma ConnectionManager_init_fields_witness :
  exists (u : str + list str) (m : ConnectionManager),
    ConnectionManager__init__ bool digits_int ascii_isspace any_Server
      example_ldap3 (UriStr (lit "ldap://a ldaps://b:1636")) PNone PNone false
      false (Some 10%Z) (Some 3600%Z) None None = Ok (u, m)
    /\ length (server m) = 2%nat
    /\ strategy m = ASYNC /\ pool_size m = None.
Proof.
  destruct (ConnectionManager__init__ bool digits_int ascii_isspace any_Server
              example_ldap3 (UriStr (lit "ldap://a ldaps://b:1636")) PNone PNone
              false false (Some 10%Z) (Some 3600%Z) None None)
    as [[u m] | e] eqn:Hinit; [ | discriminate Hinit ].
  exists u, m. split; [ reflexivity | ].
  destruct (ConnectionManager_init_fields bool digits_int ascii_isspace
              any_Server _ _ _ _ _ _ _ _ _ _ _ _ Hinit)
    as (_ & Hlen & _ & _ & _ & _ & Hnopool).
  destruct (Hnopool eq_refl) as (Hstrategy & _ & Hsize & _).
  split; [ rewrite Hlen; reflexivity | ]. split; assumption.
Defined.

(** The string [ldap://localhost] holds one URI: the attribute is [l]. *)
Lemma uri_attribute_cases_witness :
  uri_attribute ascii_isspace (UriStr (lit "ldap://localhost")) = inl (lit "l").
Proof.
  destruct (uri_attribute_cases ascii_isspace (lit "ldap://localhost")
              (lit "ldap://localhost") []) as (_ & Hstr & _).
  destruct (Hstr eq_refl) as (c & Hc & Hattr).
  rewrite Hattr. injection Hc as <-. reflexivity.
Defined.

(** After the setup of the realm [corp] its connector is found, and the
    unset realm still has none. *)
Lemma ldap_setup_then_get_witness :
  exists request' : Request,
    corp_setup = Ok request'
    /\ (exists c : Connector,
          get_ldap_connector false request' (Some (lit "corp")) = Ok c
          /\ realm c = Some (lit "corp"))
    /\ get_ldap_connector false request' None
       = get_ldap_connector false ∅ None.
Proof.
  destruct corp_setup as [request' | e] eqn:Hsetup; [ | discriminate Hsetup ].
  exists request'. split; [ reflexivity | ].
  destruct (ldap_setup_then_get bool digits_int ascii_isspace any_Server
              _ _ _ _ _ _ _ _ _ _ _ _ false Hsetup)
    as ((u & m & _ & Hget) & Hother).
  split.
  - eexists. split; [ exact Hget | reflexivity ].
  - apply Hother. discriminate.
Defined.

(** After the three directives for the realm [corp], the connector of the
    realm finds its login query. *)
Lemma setup_and_queries_agree_witness :
  exists (request' : Request) (c : Connector),
    corp_setup = Ok request'
    /\ get_ldap_connector false request' (Some (lit "corp")) = Ok c
    /\ ldap_set_groups_query (lit "ou=groups") (lit "(member=%(userdn)s)")
         SUBTREE None 0 (Some (lit "corp"))
         (ldap_set_login_query (lit "ou=people") (lit "(uid=%(login)s)")
            LEVEL None 60 (Some (lit "corp")) ∅)
       !! login_qry_identif c
       = Some example_login_query.
Proof.
  destruct corp_setup as [request' | e] eqn:Hsetup; [ | discriminate Hsetup ].
  destruct (get_ldap_connector false request' (Some (lit "corp")))
    as [c | e] eqn:Hget.
  - exists request', c. split; [ reflexivity | ]. split; [ exact Hget | ].
    destruct (setup_and_queries_agree bool digits_int ascii_isspace any_Server
                _ _ _ _ _ _ _ _ _ _ _ _ ∅
                (lit "ou=people") (lit "(uid=%(login)s)")
                (lit "ou=groups") (lit "(member=%(userdn)s)")
                LEVEL SUBTREE None None 60%Z 0%Z c Hsetup Hget)
      as [Hlogin _].
    exact Hlogin.
  - exfalso.
    destruct (ldap_setup_then_get bool digits_int ascii_isspace any_Server
                _ _ _ _ _ _ _ _ _ _ _ _ false Hsetup)
      as ((u & m & _ & Hget') & _).
    rewrite Hget' in Hget. discriminate Hget.
Defined.

(** ** The group finder *)

Section GroupfinderProperties.

Variable py_format : str -> list (str * pyval) -> Result str.

(** X24. With a connector attached for the unset realm, [groupfinder]
    returns the DNs of the records [user_groups] of that connector returns,
    in their order: [None] stays [None], the empty sequence stays empty, an
    exception goes on, and registry and world are left as [user_groups]
    leaves them. *)
Theorem groupfinder_returns_dns (ldap3_missing : bool) (userdn : pyval)
    (request : Request) (connector : Connector) (registry : Registry)
    (w : World) (r : Result (option result_set)) (s' : Registry * World) :
  request !! get_ldap_connector_name None = Some connector ->
  user_groups py_format connector userdn (registry, w) = (r, s') ->
  groupfinder py_format ldap3_missing userdn request (registry, w)
  = (match r with
     | Ok groups => Ok (List.map fst <$> groups)
     | Raise e => Raise e
     end, s').
Proof.
  intros Hreq Hgroups.
  unfold groupfinder, get_groups, get_ldap_connector, bind, of_result.
  rewrite Hreq, Hgroups.
  destruct r as [[[| g groups] |] | e]; reflexivity.
Qed.

(** X25. Without a connector for the unset realm, [get_groups] and
    [groupfinder] raise [ConfigurationError] ([ImportError] when ldap3 is
    missing) before anything is called or changed, whatever connectors of
    named realms the request has: the group finder knows no realm. *)
Theorem groupfinder_needs_default_connector (ldap3_missing : bool)
    (userdn : pyval) (request : Request) (registry : Registry) (w : World) :
  request !! get_ldap_connector_name None = None ->
  let e := if ldap3_missing
           then OtherError "ImportError"
           else ConfigurationError
                  "You must call Configurator.ldap_setup during setup to use an LDAP connector." in
  get_groups py_format ldap3_missing userdn request (registry, w)
  = (Raise e, (registry, w))
  /\ groupfinder py_format ldap3_missing userdn request (registry, w)
     = (Raise e, (registry, w)).
Proof.
  intros Hreq e. subst e.
  unfold groupfinder, get_groups, get_ldap_connector, bind, of_result.
  rewrite Hreq. destruct ldap3_missing; split; reflexivity.
Qed.

End GroupfinderProperties.

(** The groups of alice, of bob, who has none, and of [uid=down], whose
    groups cannot be read. *)
Lemma groupfinder_returns_dns_witness :
  let request : Request := {[ lit "ldap_connector" := example_connector ]} in
  fst (groupfinder percent_format false (PStr alice_dn) request
         (example_registry, example_world))
  = Ok (Some [lit "cn=staff,ou=groups"])
  /\ fst (groupfinder percent_format false (PStr (lit "uid=bob")) request
            (example_registry, example_world))
     = Ok (Some [])
  /\ fst (groupfinder percent_format false (PStr (lit "uid=down")) request
            (example_registry, example_world))
     = Ok None.
Proof.
  intros request.
  assert (Hreq : request !! get_ldap_connector_name None = Some example_connector)
    by (vm_compute; reflexivity).
  split; [ | split ].
  - run (user_groups percent_format example_connector (PStr alice_dn)
           (example_registry, example_world)) Hgroups.
    rewrite (groupfinder_returns_dns percent_format false _ _ _ _ _ _ _
               Hreq Hgroups).
    reflexivity.
  - run (user_groups percent_format example_connector (PStr (lit "uid=bob"))
           (example_registry, example_world)) Hgroups.
    rewrite (groupfinder_returns_dns percent_format false _ _ _ _ _ _ _
               Hreq Hgroups).
    reflexivity.
  - run (user_groups percent_format example_connector (PStr (lit "uid=down"))
           (example_registry, example_world)) Hgroups.
    rewrite (groupfinder_returns_dns percent_format false _ _ _ _ _ _ _
               Hreq Hgroups).
    reflexivity.
Defined.

(** Only the realm [corp] has a connector: the group finder raises. *)
Lemma groupfinder_needs_default_connector_witness :
  let request : Request :=
    {[ lit "ldap_connector_corp" :=
         new_Connector example_manager (Some (lit "corp")) ]} in
  fst (groupfinder percent_format false (PStr alice_dn) request
         (example_registry, example_world))
  = Raise (ConfigurationError
             "You must call Configurator.ldap_setup during setup to use an LDAP connector.").
Proof.
  intros request.
  destruct (groupfinder_needs_default_connector percent_format false
              (PStr alice_dn) request example_registry example_world
              ltac:(vm_compute; reflexivity)) as [_ Hfinder].
  rewrite Hfinder. reflexivity.
Defined.

(** ** What a match means, and the first execution of a query *)



Section Soundness.

Variable py_format : str -> list (str * pyval) -> Result str.



End Soundness.


